(** * metaextractor: file metadata aggregation

    A shallow embedding of package [metaextractor] (metaextractor.go):
    [NewMetaExtractor], [Extract], [getFileTimes], [tridAnalysis] and
    [extractExifData], together with the parts of Go's [strings], [os] and
    [path/filepath] packages and of the [times], [trid] and [go-exiftool]
    libraries that these functions call.

    Go strings are byte sequences: [string] (a list of 8-bit [ascii]).
    The calls that leave the process (stat, the TrID scan, the ExifTool
    session) are operations of a class [Sys] over a world [W]; the monad [M]
    threads the world and records every call with its answer. *)

From Stdlib Require Import ZArith Ascii String List Bool Lia.
From stdpp Require Import base strings gmap.

Local Open Scope string_scope.
Local Open Scope Z_scope.

(** ** Go's [unicode] tables

    [strings.ToLower] leaves its ASCII fast path for
    [strings.Map(unicode.ToLower, s)] as soon as the string holds a byte
    >= 0x80.  The case tables of package [unicode] are taken as given. *)
Class Unicode := { Map_unicode_ToLower : string -> string }.

(** ** Package [strings] *)
Module strings.

(** [s[lo:hi]] *)
Definition slice (s : string) (lo hi : nat) : string :=
  String.substring lo (hi - lo) s.

(** [strings.Contains(s, substr)]: [substr] occurs at some offset of [s]. *)
Fixpoint Contains (s substr : string) : bool :=
  String.prefix substr s ||
  match s with
  | EmptyString => false
  | String _ s' => Contains s' substr
  end.

(** Left to right scan behind [strings.ReplaceAll], for a non-empty [old]:
    at an offset where [old] starts, [new] is emitted and the
    [String.length old - 1] bytes that follow are skipped ([skip] counts
    them); matches do not overlap. *)
Fixpoint replace (old new : string) (skip : nat) (s : string) : string :=
  match s with
  | EmptyString => EmptyString
  | String c s' =>
      match skip with
      | S k => replace old new k s'
      | O =>
          if String.prefix old s
          then new +:+ replace old new (String.length old - 1) s'
          else String c (replace old new O s')
      end
  end.

(** With an empty [old], Go inserts [new] before every UTF-8 sequence and at
    the end; [intersperse] does so byte by byte, which is the same on ASCII
    text.  The package never passes an empty [old]. *)
Fixpoint intersperse (new s : string) : string :=
  match s with
  | EmptyString => new
  | String c s' => new +:+ String c (intersperse new s')
  end.

(** [strings.ReplaceAll(s, old, new)] *)
Definition ReplaceAll (s old new : string) : string :=
  match old with
  | EmptyString => intersperse new s
  | String _ _ => replace old new O s
  end.

(** Left to right scan behind [strings.Split], for a non-empty [sep]: the
    result always has one piece more than there are separators. *)
Fixpoint genSplit (sep : string) (skip : nat) (s : string) : list string :=
  match s with
  | EmptyString => [EmptyString]
  | String c s' =>
      match skip with
      | S k => genSplit sep k s'
      | O =>
          if String.prefix sep s
          then EmptyString :: genSplit sep (String.length sep - 1) s'
          else match genSplit sep O s' with
               | piece :: pieces => String c piece :: pieces
               | [] => [String c EmptyString]
               end
      end
  end.

(** With an empty [sep], Go explodes [s] into its UTF-8 sequences; bytes
    here, the same on ASCII text.  The package never passes an empty
    [sep]. *)
Fixpoint explode (s : string) : list string :=
  match s with
  | EmptyString => []
  | String c s' => String c EmptyString :: explode s'
  end.

(** [strings.Split(s, sep)] *)
Definition Split (s sep : string) : list string :=
  match sep with
  | EmptyString => explode s
  | String _ _ => genSplit sep O s
  end.

(** [utf8.RuneSelf]: bytes below it are ASCII. *)
Definition RuneSelf : nat := 128.

Definition isUpper (c : ascii) : bool :=
  (nat_of_ascii "A" <=? nat_of_ascii c)%nat && (nat_of_ascii c <=? nat_of_ascii "Z")%nat.

(** The first loop of [strings.ToLower]: it stops at the first non-ASCII
    byte and otherwise records whether an upper-case letter was seen. *)
Fixpoint scanASCII (s : string) (hasUpper : bool) : bool * bool :=
  match s with
  | EmptyString => (true, hasUpper)
  | String c s' =>
      if (RuneSelf <=? nat_of_ascii c)%nat then (false, hasUpper)
      else scanASCII s' (hasUpper || isUpper c)
  end.

(** [c += 'a' - 'A'] on the upper-case letters. *)
Definition lowerByte (c : ascii) : ascii :=
  if isUpper c
  then ascii_of_nat (nat_of_ascii c + (nat_of_ascii "a" - nat_of_ascii "A"))
  else c.

Fixpoint mapBytes (f : ascii -> ascii) (s : string) : string :=
  match s with
  | EmptyString => EmptyString
  | String c s' => String (f c) (mapBytes f s')
  end.

(** [strings.ToLower(s)] *)
Definition ToLower {uni : Unicode} (s : string) : string :=
  let '(isASCII, hasUpper) := scanASCII s false in
  if isASCII
  then if negb hasUpper then s else mapBytes lowerByte s
  else Map_unicode_ToLower s.

End strings.

(** ** Errors

    The error values that reach the package.  Its own three sentinels are
    [errors.New] values, compared by identity; [fmt.Errorf] with [%v] makes a
    fresh error that carries text only and wraps nothing.  An error made by
    the operating system or by one of the libraries is [Foreign]: the package
    observes it through [os.IsNotExist] and [Error()] alone. *)
Inductive error : Type :=
| ErrNoFileSpecified
| ErrFileNotFound
| ErrNoMetadataExtracted
| Errorf (msg : string)
| Foreign (notExist : bool) (msg : string).

(** [err.Error()] *)
Definition Error (err : error) : string :=
  match err with
  | ErrNoFileSpecified => "no file specified"
  | ErrFileNotFound => "file not found"
  | ErrNoMetadataExtracted => "no metadata extracted"
  | Errorf msg => msg
  | Foreign _ msg => msg
  end.

Module errors.

(** [err == target] on error values.  A sentinel is equal to itself only,
    which is all the package relies on; two values made elsewhere, which Go
    compares by identity, are compared here by what they carry. *)
Definition equal (err target : error) : bool :=
  match err, target with
  | ErrNoFileSpecified, ErrNoFileSpecified => true
  | ErrFileNotFound, ErrFileNotFound => true
  | ErrNoMetadataExtracted, ErrNoMetadataExtracted => true
  | Errorf msg, Errorf msg' => String.eqb msg msg'
  | Foreign notExist msg, Foreign notExist' msg' =>
      Bool.eqb notExist notExist' && String.eqb msg msg'
  | _, _ => false
  end.

(** [errors.Is(err, target)]: none of the errors above unwraps, so the
    chain is [err] itself. *)
Definition Is (err target : error) : bool := equal err target.

End errors.

(** ** Package [os] (Unix) *)
Module os.

(** [os.IsPathSeparator]: ['/'] is the only separator. *)
Definition IsPathSeparator (c : ascii) : bool := Ascii.eqb c "/".

(** [os.FileInfo], of which the package reads [Size()] only. *)
Record FileInfo : Type := { Name : string; Size : Z; IsDir : bool }.

(** [os.IsNotExist(err)] *)
Definition IsNotExist (err : error) : bool :=
  match err with
  | Foreign notExist _ => notExist
  | _ => false
  end.

End os.

(** ** Package [path/filepath] (Unix) *)
Module filepath.

(** The loop of [filepath.Ext],
    [for i := len(path) - 1; i >= 0 && !os.IsPathSeparator(path[i]); i--],
    entered with [n = i + 1]. *)
Fixpoint Ext_loop (path : string) (n : nat) : string :=
  match n with
  | O => EmptyString
  | S i =>
      match String.get i path with
      | Some c =>
          if os.IsPathSeparator c then EmptyString
          else if Ascii.eqb c "." then strings.slice path i (String.length path)
          else Ext_loop path i
      | None => EmptyString
      end
  end.

(** [filepath.Ext(path)]: the suffix of the last path element from its last
    dot on, or the empty string. *)
Definition Ext (path : string) : string := Ext_loop path (String.length path).

(** [for len(path) > 0 && os.IsPathSeparator(path[len(path)-1])]: the length
    left once the trailing separators are cut, starting from length [n]. *)
Fixpoint stripTrailing (path : string) (n : nat) : nat :=
  match n with
  | O => O
  | S i =>
      match String.get i path with
      | Some c => if os.IsPathSeparator c then stripTrailing path i else n
      | None => n
      end
  end.

(** [for i >= 0 && !os.IsPathSeparator(path[i]) { i-- }], entered with
    [n = i + 1]; the result is [i + 1], the offset of the last element. *)
Fixpoint lastElement (path : string) (n : nat) : nat :=
  match n with
  | O => O
  | S i =>
      match String.get i path with
      | Some c => if os.IsPathSeparator c then n else lastElement path i
      | None => n
      end
  end.

(** [filepath.Base(path)]; the volume name is empty on Unix. *)
Definition Base (path : string) : string :=
  if String.eqb path "" then "."
  else
    let path1 := strings.slice path 0 (stripTrailing path (String.length path)) in
    let i := lastElement path1 (String.length path1) in
    let path2 := strings.slice path1 i (String.length path1) in
    if String.eqb path2 "" then "/" else path2.

End filepath.


(** ** Package [time] *)
Module time.

(** [time.Time] as the instant it denotes: seconds since January 1 of
    year 1, and nanoseconds.  The zero value is the zero instant. *)
Record Time : Type := { sec : Z; nsec : Z }.

Definition zero : Time := {| sec := 0; nsec := 0 |}.

(** [t.IsZero()] *)
Definition IsZero (t : Time) : bool := (sec t =? 0) && (nsec t =? 0).

(** [time.Duration], in nanoseconds. *)
Definition Duration : Type := Z.

End time.

(** ** Library [github.com/djherbis/times] *)
Module times.

(** The [times.Timespec] interface.  Change and birth time are meaningful
    only where [HasChangeTime] and [HasBirthTime] answer true. *)
Record Timespec : Type := {
  ModTime : time.Time;
  AccessTime : time.Time;
  ChangeTime : time.Time;
  BirthTime : time.Time;
  HasChangeTime : bool;
  HasBirthTime : bool
}.

End times.

(** ** Library [github.com/attilabuti/trid] *)
Module trid.

(** [trid.Options], as [NewMetaExtractor] fills it. *)
Record Options : Type := {
  Cmd : string;
  Definitions : string;
  Timeout : time.Duration
}.

(** A scanner is known by the options it was made from. *)
Inductive Trid : Type := NewTrid (opts : Options).

(** Modelled from the spec: [trid.FileType] is declared in the trid library;
    a candidate has a label, a MIME type and the matched-extension string,
    which may hold several alternatives ("jpg/jpeg"). *)
Record FileType : Type := {
  Extension : string;
  Type_ : string;
  Mime : string
}.

End trid.

(** ** Library [github.com/barasher/go-exiftool] *)
Module exiftool.

(** The configuration functions that [NewMetaExtractor] passes on. *)
Inductive Option : Type :=
| ExtractAllBinaryMetadata
| ExtractEmbedded
| SetExiftoolBinaryPath (p : string).

(** A running ExifTool session, [*exiftool.Exiftool]. *)
Inductive Exiftool : Type := session (id : nat).

(** [exiftool.FileMetadata]; [Fields] is a Go map, [None] for the nil map. *)
Record FileMetadata (any : Type) : Type := {
  File : string;
  Fields : option (gmap string any);
  Err : option error
}.
Arguments File {any} _.
Arguments Fields {any} _.
Arguments Err {any} _.

End exiftool.

(** ** Package [metaextractor]: types *)

(** [MetaExtractor] *)
Record MetaExtractor : Type := {
  trid : trid.Trid;
  tridMatches : Z;
  exifToolOpts : list exiftool.Option
}.

(** [Options] *)
Record Options : Type := {
  TridPath : string;
  TridDefs : string;
  TridTimeout : time.Duration;
  TridMatches : Z;
  ExifToolPath : string
}.

(** [FileTime] *)
Record FileTime : Type := {
  ModTime : time.Time;
  AccessTime : time.Time;
  ChangeTime : time.Time;
  BirthTime : time.Time
}.

(** [FileTime{}] *)
Definition zero_FileTime : FileTime :=
  {| ModTime := time.zero; AccessTime := time.zero;
     ChangeTime := time.zero; BirthTime := time.zero |}.

(** [Metadata]; [ExifMetadata] is [map[string]interface{}], [None] for the
    nil map, over the values [any] that ExifTool's output decodes to. *)
Record Metadata (any : Type) : Type := {
  Name : string;
  Extension : string;
  ExtMismatch : bool;
  Size : Z;
  Time : FileTime;
  Types : list trid.FileType;
  Exif : option (gmap string any)
}.
Arguments Name {any} _.
Arguments Extension {any} _.
Arguments ExtMismatch {any} _.
Arguments Size {any} _.
Arguments Time {any} _.
Arguments Types {any} _.
Arguments Exif {any} _.

(** [NewMetaExtractor] *)
Definition NewMetaExtractor (opts : Options) : MetaExtractor :=
  let TridMatches' := if TridMatches opts <=? 0 then 5 else TridMatches opts in
  let exifToolOpts := [exiftool.ExtractAllBinaryMetadata; exiftool.ExtractEmbedded] in
  let exifToolOpts :=
    if negb (String.eqb (ExifToolPath opts) "")
    then (exifToolOpts ++ [exiftool.SetExiftoolBinaryPath (ExifToolPath opts)])%list
    else exifToolOpts in
  {| trid := trid.NewTrid {| trid.Cmd := TridPath opts;
                             trid.Definitions := TridDefs opts;
                             trid.Timeout := TridTimeout opts |};
     tridMatches := TridMatches';
     exifToolOpts := exifToolOpts |}.

(** ** The outside world

    Every call that leaves the process is answered by the world, which may
    change under the call and between calls.  Calls whose first result is an
    interface or a pointer answer with a value or with an error; [Scan]
    answers with Go's pair. *)
Class Sys (any W : Type) : Type := {
  (** [os.Stat(name)] *)
  sys_os_Stat : string -> W -> (os.FileInfo + error) * W;
  (** [times.Stat(name)] *)
  sys_times_Stat : string -> W -> (times.Timespec + error) * W;
  (** [Scan(file, n)] on a [trid.Trid] *)
  sys_trid_Scan : trid.Trid -> string -> Z -> W -> (list trid.FileType * option error) * W;
  (** [exiftool.NewExiftool(opts...)] *)
  sys_exiftool_New : list exiftool.Option -> W -> (exiftool.Exiftool + error) * W;
  (** [ExtractMetadata(files...)] on an ExifTool session *)
  sys_exiftool_ExtractMetadata :
    exiftool.Exiftool -> list string -> W -> list (exiftool.FileMetadata any) * W;
  (** [Close()] on an ExifTool session *)
  sys_exiftool_Close : exiftool.Exiftool -> W -> option error * W
}.

(** A call together with its answer. *)
Inductive Event (any : Type) : Type :=
| Ev_os_Stat (name : string) (r : os.FileInfo + error)
| Ev_times_Stat (name : string) (r : times.Timespec + error)
| Ev_trid_Scan (t : trid.Trid) (file : string) (n : Z) (r : list trid.FileType * option error)
| Ev_exiftool_New (opts : list exiftool.Option) (r : exiftool.Exiftool + error)
| Ev_exiftool_ExtractMetadata (et : exiftool.Exiftool) (files : list string)
    (r : list (exiftool.FileMetadata any))
| Ev_exiftool_Close (et : exiftool.Exiftool) (r : option error).
Arguments Ev_os_Stat {any} _ _.
Arguments Ev_times_Stat {any} _ _.
Arguments Ev_trid_Scan {any} _ _ _ _.
Arguments Ev_exiftool_New {any} _ _.
Arguments Ev_exiftool_ExtractMetadata {any} _ _ _.
Arguments Ev_exiftool_Close {any} _ _.

(** The state a computation runs in: the world and the calls made so far,
    oldest first. *)
Record State (any W : Type) : Type := { world : W; trace : list (Event any) }.
Arguments Build_State {any W} _ _.
Arguments world {any W} _.
Arguments trace {any W} _.

(** ** The monad of the package's functions *)
Definition M (any W A : Type) : Type := State any W -> A * State any W.

#[global] Instance M_ret {any W} : MRet (M any W) := fun A a s => (a, s).
#[global] Instance M_bind {any W} : MBind (M any W) :=
  fun A B k m s => let '(a, s') := m s in k a s'.

(** One call: ask the world, log call and answer. *)
Definition call {any W A} (ask : W -> A * W) (ev : A -> Event any) : M any W A :=
  fun s =>
    let '(a, w') := ask (world s) in
    (a, {| world := w'; trace := (trace s ++ [ev a])%list |}).

(** [run m w]: [m] from world [w] with nothing logged yet. *)
Definition run {any W A} (m : M any W A) (w : W) : A * State any W :=
  m {| world := w; trace := [] |}.

(** What a run returned, and the calls it made. *)
Definition returned {any W A} (r : A * State any W) : A := fst r.
Definition calls {any W A} (r : A * State any W) : list (Event any) := trace (snd r).

Section Package.

Context {any W : Type} {sys : Sys any W} {uni : Unicode}.

Definition os_Stat (name : string) : M any W (os.FileInfo + error) :=
  call (sys_os_Stat name) (Ev_os_Stat name).

Definition times_Stat (name : string) : M any W (times.Timespec + error) :=
  call (sys_times_Stat name) (Ev_times_Stat name).

Definition trid_Scan (t : trid.Trid) (file : string) (n : Z)
  : M any W (list trid.FileType * option error) :=
  call (sys_trid_Scan t file n) (Ev_trid_Scan t file n).

Definition exiftool_NewExiftool (opts : list exiftool.Option)
  : M any W (exiftool.Exiftool + error) :=
  call (sys_exiftool_New opts) (Ev_exiftool_New opts).

Definition exiftool_ExtractMetadata (et : exiftool.Exiftool) (files : list string)
  : M any W (list (exiftool.FileMetadata any)) :=
  call (sys_exiftool_ExtractMetadata et files) (Ev_exiftool_ExtractMetadata et files).

Definition exiftool_Close (et : exiftool.Exiftool) : M any W (option error) :=
  call (sys_exiftool_Close et) (Ev_exiftool_Close et).

(** [var metadata Metadata] *)
Definition zero_Metadata : Metadata any :=
  {| Name := ""; Extension := ""; ExtMismatch := false; Size := 0;
     Time := zero_FileTime; Types := []; Exif := None |}.

(** Field assignments [metadata.F = v]. *)
Definition set_Name (m : Metadata any) (v : string) : Metadata any :=
  {| Name := v; Extension := Extension m; ExtMismatch := ExtMismatch m; Size := Size m;
     Time := Time m; Types := Types m; Exif := Exif m |}.
Definition set_Extension (m : Metadata any) (v : string) : Metadata any :=
  {| Name := Name m; Extension := v; ExtMismatch := ExtMismatch m; Size := Size m;
     Time := Time m; Types := Types m; Exif := Exif m |}.
Definition set_ExtMismatch (m : Metadata any) (v : bool) : Metadata any :=
  {| Name := Name m; Extension := Extension m; ExtMismatch := v; Size := Size m;
     Time := Time m; Types := Types m; Exif := Exif m |}.
Definition set_Size (m : Metadata any) (v : Z) : Metadata any :=
  {| Name := Name m; Extension := Extension m; ExtMismatch := ExtMismatch m; Size := v;
     Time := Time m; Types := Types m; Exif := Exif m |}.
Definition set_Time (m : Metadata any) (v : FileTime) : Metadata any :=
  {| Name := Name m; Extension := Extension m; ExtMismatch := ExtMismatch m; Size := Size m;
     Time := v; Types := Types m; Exif := Exif m |}.
Definition set_Types (m : Metadata any) (v : list trid.FileType) : Metadata any :=
  {| Name := Name m; Extension := Extension m; ExtMismatch := ExtMismatch m; Size := Size m;
     Time := Time m; Types := v; Exif := Exif m |}.
Definition set_Exif (m : Metadata any) (v : option (gmap string any)) : Metadata any :=
  {| Name := Name m; Extension := Extension m; ExtMismatch := ExtMismatch m; Size := Size m;
     Time := Time m; Types := Types m; Exif := v |}.

(** [getFileTimes] *)
Definition getFileTimes (filePath : string) : M any W (FileTime * option error) :=
  r ← times_Stat filePath;
  match r with
  | inr err => mret (zero_FileTime, Some err)
  | inl t =>
      let changeTime := time.zero in
      let changeTime := if times.HasChangeTime t then times.ChangeTime t else changeTime in
      let birthTime := time.zero in
      let birthTime := if times.HasBirthTime t then times.BirthTime t else birthTime in
      mret ({| AccessTime := times.AccessTime t;
               ModTime := times.ModTime t;
               ChangeTime := changeTime;
               BirthTime := birthTime |}, None)
  end.

(** [tridAnalysis] *)
Definition tridAnalysis (me : MetaExtractor) (filePath : string)
  : M any W (list trid.FileType * option error) :=
  trid_Scan (trid me) filePath (tridMatches me).

(** [extractExifData]; the deferred [et.Close()] runs once the results are
    fixed, on each way out after the session was opened, and what it returns
    is dropped. *)
Definition extractExifData (me : MetaExtractor) (filePath : string)
  : M any W (option (gmap string any) * option error) :=
  r ← exiftool_NewExiftool (exifToolOpts me);
  match r with
  | inr err => mret (None, Some (Errorf ("error initializing ExifTool: " +:+ Error err)))
  | inl et =>
      fileInfos ← exiftool_ExtractMetadata et [filePath];
      let results :=
        match fileInfos with
        | [] => (None, Some ErrNoMetadataExtracted)
        | fileInfos0 :: _ =>
            match exiftool.Err fileInfos0 with
            | Some err => (None, Some (Errorf ("error extracting metadata: " +:+ Error err)))
            | None => (exiftool.Fields fileInfos0, None)
            end
        end in
      _ ← exiftool_Close et;
      mret results
  end.

(** [for _, e := range es { if "."+e == metadata.Extension { ...; break } }] *)
Fixpoint range_es (es : list string) (metadata : Metadata any) : Metadata any :=
  match es with
  | [] => metadata
  | e :: es' =>
      if String.eqb ("." +:+ e) (Extension metadata)
      then set_ExtMismatch metadata false
      else range_es es' metadata
  end.

(** [Extract] *)
Definition Extract (me : MetaExtractor) (filePath : string)
  : M any W (Metadata any * option error) :=
  let metadata := zero_Metadata in
  if String.eqb filePath "" then mret (metadata, Some ErrNoFileSpecified)
  else
    r ← os_Stat filePath;
    match r with
    | inr err =>
        if os.IsNotExist err then mret (metadata, Some ErrFileNotFound)
        else mret (metadata, Some err)
    | inl fileInfo =>
        let metadata := set_Name metadata (filepath.Base filePath) in
        let metadata := set_Extension metadata (strings.ToLower (filepath.Ext filePath)) in
        let metadata := set_Size metadata (os.Size fileInfo) in
        '(fileTime, err) ← getFileTimes filePath;
        match err with
        | Some err => mret (metadata, Some err)
        | None =>
            let metadata := set_Time metadata fileTime in
            '(fileTypes, err) ← tridAnalysis me filePath;
            match err with
            | Some err => mret (metadata, Some err)
            | None =>
                let metadata := set_Types metadata fileTypes in
                let metadata :=
                  match fileTypes with
                  | fileTypes0 :: _ =>
                      if strings.Contains (trid.Extension fileTypes0) "/"
                      then
                        let metadata := set_ExtMismatch metadata true in
                        let es := strings.Split
                                    (strings.ReplaceAll (trid.Extension fileTypes0) "." "")
                                    "/" in
                        range_es es metadata
                      else if negb (String.eqb (Extension metadata) (trid.Extension fileTypes0))
                      then set_ExtMismatch metadata true
                      else metadata
                  | [] => metadata
                  end in
                '(exifData, err) ← extractExifData me filePath;
                match err with
                | None => mret (set_Exif metadata exifData, None)
                | Some err =>
                    if errors.Is err ErrNoMetadataExtracted
                    then mret (set_Exif metadata (Some ∅), None)
                    else mret (metadata, Some err)
                end
            end
        end
    end.

End Package.

(** ** The extension rule, in the specification's words

    Split the matched-extension field on ['/'], strip the dots from each
    alternative and prefix it with a dot; the extension matches when it equals
    one of these. *)
Definition spec_alternatives (field : string) : list string :=
  map (fun alt => "." +:+ strings.ReplaceAll alt "." "") (strings.Split field "/").

Definition spec_extension_matches (field ext : string) : bool :=
  existsb (fun alt => String.eqb alt ext) (spec_alternatives field).

(** The flag as the specification derives it from the extension and the
    candidates: false without candidates; with alternatives in the top
    candidate's field, the negation of the match above; otherwise whether
    extension and field differ. *)
Definition spec_mismatch (ext : string) (candidates : list trid.FileType) : bool :=
  match candidates with
  | [] => false
  | top :: _ =>
      if strings.Contains (trid.Extension top) "/"
      then negb (spec_extension_matches (trid.Extension top) ext)
      else negb (String.eqb ext (trid.Extension top))
  end.

(** ** A scripted world

    The answers are fixed in advance, one per kind of call; they need not be
    consistent with one another, as when a file is removed between two
    calls. *)
Record Script (any : Type) : Type := {
  on_os_Stat : os.FileInfo + error;
  on_times_Stat : times.Timespec + error;
  on_trid_Scan : list trid.FileType * option error;
  on_exiftool_New : exiftool.Exiftool + error;
  on_exiftool_ExtractMetadata : list (exiftool.FileMetadata any);
  on_exiftool_Close : option error
}.
Arguments on_os_Stat {any} _.
Arguments on_times_Stat {any} _.
Arguments on_trid_Scan {any} _.
Arguments on_exiftool_New {any} _.
Arguments on_exiftool_ExtractMetadata {any} _.
Arguments on_exiftool_Close {any} _.

Definition scripted (any : Type) : Sys any (Script any) :=
  {| sys_os_Stat := fun _ w => (on_os_Stat w, w);
     sys_times_Stat := fun _ w => (on_times_Stat w, w);
     sys_trid_Scan := fun _ _ _ w => (on_trid_Scan w, w);
     sys_exiftool_New := fun _ w => (on_exiftool_New w, w);
     sys_exiftool_ExtractMetadata := fun _ _ w => (on_exiftool_ExtractMetadata w, w);
     sys_exiftool_Close := fun _ w => (on_exiftool_Close w, w) |}.

(** Non-ASCII text is left alone by this stand-in for the case tables. *)
Definition ascii_only : Unicode := {| Map_unicode_ToLower := fun s => s |}.

Definition sample_extractor : MetaExtractor :=
  NewMetaExtractor {| TridPath := "/usr/bin/trid"; TridDefs := "/usr/share/trid/triddefs.trd";
                      TridTimeout := 5000000000; TridMatches := 0; ExifToolPath := "" |}.

Definition sample_info : os.FileInfo :=
  {| os.Name := "sample"; os.Size := 1044; os.IsDir := false |}.

(** A file system without birth times. *)
Definition sample_times : times.Timespec :=
  {| times.ModTime := {| time.sec := 63800000000; time.nsec := 5 |};
     times.AccessTime := {| time.sec := 63800000100; time.nsec := 0 |};
     times.ChangeTime := {| time.sec := 63800000000; time.nsec := 7 |};
     times.BirthTime := time.zero;
     times.HasChangeTime := true;
     times.HasBirthTime := false |}.

Definition sample_type (ext : string) : trid.FileType :=
  {| trid.Extension := ext; trid.Type_ := "sample type"; trid.Mime := "application/octet-stream" |}.

Definition sample_fields : gmap string string := {[ "FileType" := "PDF" ]}.

(** Every call succeeds; TrID's candidates are [types]. *)
Definition all_well (types : list trid.FileType) : Script string :=
  {| on_os_Stat := inl sample_info;
     on_times_Stat := inl sample_times;
     on_trid_Scan := (types, None);
     on_exiftool_New := inl (exiftool.session 1);
     on_exiftool_ExtractMetadata :=
       [ {| exiftool.File := "sample"; exiftool.Fields := Some sample_fields;
            exiftool.Err := None |} ];
     on_exiftool_Close := None |}.

(** The file is gone: [os.Stat] reports that it does not exist. *)
Definition file_missing : Script string :=
  {| on_os_Stat := inr (Foreign true "stat nonexistent_file: no such file or directory");
     on_times_Stat := inr (Foreign true "stat nonexistent_file: no such file or directory");
     on_trid_Scan := ([], None);
     on_exiftool_New := inl (exiftool.session 1);
     on_exiftool_ExtractMetadata := [];
     on_exiftool_Close := None |}.

(** The file is removed after [os.Stat] and before [times.Stat]. *)
Definition file_vanishes : Script string :=
  {| on_os_Stat := inl sample_info;
     on_times_Stat := inr (Foreign true "stat sample: no such file or directory");
     on_trid_Scan := ([], None);
     on_exiftool_New := inl (exiftool.session 1);
     on_exiftool_ExtractMetadata := [];
     on_exiftool_Close := None |}.

(** TrID fails (here: it timed out). *)
Definition trid_fails : Script string :=
  {| on_os_Stat := inl sample_info;
     on_times_Stat := inl sample_times;
     on_trid_Scan := ([], Some (Foreign false "trid: timeout"));
     on_exiftool_New := inl (exiftool.session 1);
     on_exiftool_ExtractMetadata := [];
     on_exiftool_Close := None |}.

(** ExifTool cannot be started. *)
Definition exiftool_missing (types : list trid.FileType) : Script string :=
  {| on_os_Stat := inl sample_info;
     on_times_Stat := inl sample_times;
     on_trid_Scan := (types, None);
     on_exiftool_New := inr (Foreign false "exec: exiftool: executable file not found in $PATH");
     on_exiftool_ExtractMetadata := [];
     on_exiftool_Close := None |}.

(** ExifTool reports an error for the file. *)
Definition exiftool_rejects (types : list trid.FileType) : Script string :=
  {| on_os_Stat := inl sample_info;
     on_times_Stat := inl sample_times;
     on_trid_Scan := (types, None);
     on_exiftool_New := inl (exiftool.session 1);
     on_exiftool_ExtractMetadata :=
       [ {| exiftool.File := "sample"; exiftool.Fields := None;
            exiftool.Err := Some (Foreign false "error during unmarshaling") |} ];
     on_exiftool_Close := None |}.

(** ExifTool answers with no per-file result at all. *)
Definition exiftool_silent (types : list trid.FileType) : Script string :=
  {| on_os_Stat := inl sample_info;
     on_times_Stat := inl sample_times;
     on_trid_Scan := (types, None);
     on_exiftool_New := inl (exiftool.session 1);
     on_exiftool_ExtractMetadata := [];
     on_exiftool_Close := None |}.

(** [Extract] on the sample extractor in a scripted world. *)
Definition sample_Extract (filePath : string) (w : Script string) :=
  run (Extract (sys := scripted string) (uni := ascii_only) sample_extractor filePath) w.

(** ** A Unix file system

    Enough of stat(2) to tell a missing entry from the error that reports
    it.  The world is a tree of entries, and a path is resolved from its root
    name by name: a name that is not there gives ENOENT, a name looked up in
    something that is no directory gives ENOTDIR.  There are no symbolic
    links, no "." or ".." and no permissions; the tree does not change. *)
Inductive Errno : Type := ENOENT | ENOTDIR.

#[warnings="-register-all"]
Inductive Entry : Type :=
| File (info : os.FileInfo) (ts : times.Timespec)
| Dir (info : os.FileInfo) (ts : times.Timespec) (children : list (string * Entry)).

Definition entry_info (e : Entry) : os.FileInfo :=
  match e with
  | File info _ => info
  | Dir info _ _ => info
  end.

Definition entry_times (e : Entry) : times.Timespec :=
  match e with
  | File _ ts => ts
  | Dir _ ts _ => ts
  end.

Fixpoint child (name : string) (children : list (string * Entry)) : option Entry :=
  match children with
  | [] => None
  | (name', e) :: children' => if String.eqb name name' then Some e else child name children'
  end.

(** The names of a path: what stands between its separators. *)
Definition names (path : string) : list string :=
  List.filter (fun name => negb (String.eqb name "")) (strings.Split path "/").

Fixpoint resolve (e : Entry) (path_names : list string) : Entry + Errno :=
  match path_names with
  | [] => inl e
  | name :: path_names' =>
      match e with
      | File _ _ => inr ENOTDIR
      | Dir _ _ children =>
          match child name children with
          | None => inr ENOENT
          | Some e' => resolve e' path_names'
          end
      end
  end.

Definition endsWithSeparator (path : string) : bool :=
  match String.get (String.length path - 1) path with
  | Some c => os.IsPathSeparator c
  | None => false
  end.

(** stat(2) on [path]: the empty path names nothing, and a path that ends in
    a separator must lead to a directory. *)
Definition stat (root : Entry) (path : string) : Entry + Errno :=
  if String.eqb path "" then inr ENOENT
  else
    match resolve root (names path) with
    | inl (File info ts) =>
        if endsWithSeparator path then inr ENOTDIR else inl (File info ts)
    | answer => answer
    end.

(** The path names no entry of the tree. *)
Definition missing (root : Entry) (path : string) : bool :=
  match stat root path with
  | inl _ => false
  | inr _ => true
  end.

(** The [*fs.PathError] that [os.Stat] makes of an errno; [os.IsNotExist]
    holds of it for ENOENT alone. *)
Definition stat_error (path : string) (errno : Errno) : error :=
  match errno with
  | ENOENT => Foreign true ("stat " +:+ path +:+ ": no such file or directory")
  | ENOTDIR => Foreign false ("stat " +:+ path +:+ ": not a directory")
  end.

(** A world with a file system; the tools answer as scripted.  [times.Stat]
    stats the path as [os.Stat] does. *)
Record Unix (any : Type) : Type := { root : Entry; tools : Script any }.
Arguments root {any} _.
Arguments tools {any} _.

Definition unix (any : Type) : Sys any (Unix any) :=
  {| sys_os_Stat := fun name w =>
       (match stat (root w) name with
        | inl e => inl (entry_info e)
        | inr errno => inr (stat_error name errno)
        end, w);
     sys_times_Stat := fun name w =>
       (match stat (root w) name with
        | inl e => inl (entry_times e)
        | inr errno => inr (stat_error name errno)
        end, w);
     sys_trid_Scan := fun _ _ _ w => (on_trid_Scan (tools w), w);
     sys_exiftool_New := fun _ w => (on_exiftool_New (tools w), w);
     sys_exiftool_ExtractMetadata := fun _ _ w => (on_exiftool_ExtractMetadata (tools w), w);
     sys_exiftool_Close := fun _ w => (on_exiftool_Close (tools w), w) |}.

(** A directory with the regular file "file.txt" and the directory
    "testdata", which holds "sample.doc". *)
Definition sample_root : Entry :=
  Dir {| os.Name := "."; os.Size := 4096; os.IsDir := true |} sample_times
    [ ("file.txt", File {| os.Name := "file.txt"; os.Size := 12; os.IsDir := false |}
                        sample_times);
      ("testdata", Dir {| os.Name := "testdata"; os.Size := 4096; os.IsDir := true |}
                       sample_times
                     [ ("sample.doc", File sample_info sample_times) ]) ].

Definition sample_unix : Unix string :=
  {| root := sample_root; tools := all_well [sample_type ".pdf"] |}.

(** [Extract] on the sample extractor in the sample file system. *)
Definition unix_Extract (filePath : string) :=
  run (Extract (sys := unix string) (uni := ascii_only) sample_extractor filePath) sample_unix.

(** ** Notions for further properties *)

(** Every byte of [s] is ASCII: the first loop of [strings.ToLower] runs to
    the end of [s]. *)
Definition isASCII (s : string) : bool := fst (strings.scanASCII s false).

(** Some byte of [s] is an upper-case ASCII letter. *)
Fixpoint hasUpper (s : string) : bool :=
  match s with
  | EmptyString => false
  | String c s' => strings.isUpper c || hasUpper s'
  end.

(** A call without its answer. *)
Inductive Call : Type :=
| Call_os_Stat (name : string)
| Call_times_Stat (name : string)
| Call_trid_Scan (t : trid.Trid) (file : string) (n : Z)
| Call_exiftool_New (opts : list exiftool.Option)
| Call_exiftool_ExtractMetadata (et : exiftool.Exiftool) (files : list string)
| Call_exiftool_Close (et : exiftool.Exiftool).

Definition call_of {any : Type} (ev : Event any) : Call :=
  match ev with
  | Ev_os_Stat name _ => Call_os_Stat name
  | Ev_times_Stat name _ => Call_times_Stat name
  | Ev_trid_Scan t file n _ => Call_trid_Scan t file n
  | Ev_exiftool_New opts _ => Call_exiftool_New opts
  | Ev_exiftool_ExtractMetadata et files _ => Call_exiftool_ExtractMetadata et files
  | Ev_exiftool_Close et _ => Call_exiftool_Close et
  end.


(** The calls of a run of [Extract] that goes through every step, with the
    session [et]. *)
Definition full_protocol (me : MetaExtractor) (filePath : string) (et : exiftool.Exiftool)
  : list Call :=
  [ Call_os_Stat filePath;
    Call_times_Stat filePath;
    Call_trid_Scan (trid me) filePath (tridMatches me);
    Call_exiftool_New (exifToolOpts me);
    Call_exiftool_ExtractMetadata et [filePath];
    Call_exiftool_Close et ].

(** Everything succeeds, but closing the session fails and ExifTool has
    answered for more files than it was asked about. *)
Definition close_fails (types : list trid.FileType) : Script string :=
  {| on_os_Stat := inl sample_info;
     on_times_Stat := inl sample_times;
     on_trid_Scan := (types, None);
     on_exiftool_New := inl (exiftool.session 7);
     on_exiftool_ExtractMetadata :=
       [ {| exiftool.File := "sample"; exiftool.Fields := Some sample_fields;
            exiftool.Err := None |};
         {| exiftool.File := "other"; exiftool.Fields := None;
            exiftool.Err := Some (Foreign false "file not found") |} ];
     on_exiftool_Close := Some (Foreign false "error while closing stdin") |}.

(** * Properties *)

(** ** Worked examples *)

Example Contains_slash : strings.Contains "jpg/jpeg" "/" = true.
Proof. reflexivity. Qed.

Example Split_jpg :
  strings.Split (strings.ReplaceAll ".jpg/.jpeg" "." "") "/" = ["jpg"; "jpeg"].
Proof. reflexivity. Qed.

Example Split_multi : strings.Split "a--b----c-" "--" = ["a"; "b"; ""; "c-"].
Proof. reflexivity. Qed.

Example Replace_multi : strings.ReplaceAll "aaaa.a" "aa" "b" = "bb.a".
Proof. reflexivity. Qed.

Example Ext_examples :
  filepath.Ext "testdata/sample.tar.GZ" = ".GZ" /\ filepath.Ext "a.b/c" = ""
  /\ filepath.Ext "a.b/" = "" /\ filepath.Ext ".." = ".".
Proof. repeat split; reflexivity. Qed.

Example Base_examples :
  filepath.Base "testdata/sample.doc" = "sample.doc" /\ filepath.Base "///" = "/"
  /\ filepath.Base "a.b//" = "a.b" /\ filepath.Base "" = ".".
Proof. repeat split; reflexivity. Qed.

Example ToLower_examples :
  strings.ToLower (uni := ascii_only) ".GZ" = ".gz"
  /\ strings.ToLower (uni := ascii_only) ".doc" = ".doc".
Proof. split; reflexivity. Qed.

Example NewMetaExtractor_default : tridMatches sample_extractor = 5.
Proof. reflexivity. Qed.

(** The cases of the package's test, on scripted answers: for "empty" the
    scan fails; "sample.mp3" is recognised as what its extension says;
    "sample.doc" is recognised as a PDF. *)
Example test_Empty_File :
  returned (sample_Extract "testdata/empty" trid_fails)
  = ({| Name := "empty"; Extension := ""; ExtMismatch := false; Size := 1044;
        Time := {| ModTime := times.ModTime sample_times;
                   AccessTime := times.AccessTime sample_times;
                   ChangeTime := times.ChangeTime sample_times;
                   BirthTime := time.zero |};
        Types := []; Exif := None |},
     Some (Foreign false "trid: timeout")).
Proof. reflexivity. Qed.

Example test_MP3_File :
  snd (returned (sample_Extract "testdata/sample.mp3" (all_well [sample_type ".mp3"]))) = None
  /\ Extension (fst (returned (sample_Extract "testdata/sample.mp3"
                                 (all_well [sample_type ".mp3"])))) = ".mp3"
  /\ ExtMismatch (fst (returned (sample_Extract "testdata/sample.mp3"
                                   (all_well [sample_type ".mp3"])))) = false.
Proof. repeat split; reflexivity. Qed.

Example test_PDF_File :
  snd (returned (sample_Extract "testdata/sample.doc" (all_well [sample_type ".pdf"]))) = None
  /\ Name (fst (returned (sample_Extract "testdata/sample.doc"
                            (all_well [sample_type ".pdf"])))) = "sample.doc"
  /\ ExtMismatch (fst (returned (sample_Extract "testdata/sample.doc"
                                   (all_well [sample_type ".pdf"])))) = true
  /\ Exif (fst (returned (sample_Extract "testdata/sample.doc"
                            (all_well [sample_type ".pdf"])))) = Some sample_fields.
Proof. repeat split; reflexivity. Qed.

(** A directory named with a trailing separator keeps its name and loses its
    extension. *)
Example trailing_separator :
  filepath.Base "photo.jpeg/" = "photo.jpeg" /\ filepath.Ext "photo.jpeg/" = "".
Proof. split; reflexivity. Qed.

(** ** Facts about [strings] and [filepath] *)
Section StringFacts.

Lemma prefix_empty (s : string) : String.prefix "" s = true.
Proof. destruct s; reflexivity. Qed.

Lemma prefix_byte (c a : ascii) (s : string) :
  String.prefix (String c "") (String a s) = bool_decide (c = a).
Proof.
  simpl. destruct (ascii_dec c a) as [->|Hne].
  - rewrite prefix_empty. symmetry. apply bool_decide_eq_true. reflexivity.
  - symmetry. apply bool_decide_eq_false. exact Hne.
Qed.

Lemma genSplit_byte_cons (c a : ascii) (s : string) :
  strings.genSplit (String c "") O (String a s) =
  if bool_decide (c = a) then "" :: strings.genSplit (String c "") O s
  else match strings.genSplit (String c "") O s with
       | piece :: pieces => String a piece :: pieces
       | [] => [String a ""]
       end.
Proof.
  change (strings.genSplit (String c "") O (String a s))
    with (if String.prefix (String c "") (String a s)
          then "" :: strings.genSplit (String c "") O s
          else match strings.genSplit (String c "") O s with
               | piece :: pieces => String a piece :: pieces
               | [] => [String a ""]
               end).
  rewrite prefix_byte. reflexivity.
Qed.

Lemma genSplit_nonempty (sep : string) (s : string) (skip : nat) :
  strings.genSplit sep skip s <> [].
Proof.
  revert skip. induction s as [|a s IH]; intros skip; cbn [strings.genSplit].
  - discriminate.
  - destruct skip as [|k]; [|apply IH].
    destruct (String.prefix sep (String a s)); [discriminate|].
    destruct (strings.genSplit sep O s); discriminate.
Qed.

Lemma replace_byte_cons (c a : ascii) (new s : string) :
  strings.replace (String c "") new O (String a s) =
  if bool_decide (c = a) then new +:+ strings.replace (String c "") new O s
  else String a (strings.replace (String c "") new O s).
Proof.
  change (strings.replace (String c "") new O (String a s))
    with (if String.prefix (String c "") (String a s)
          then new +:+ strings.replace (String c "") new O s
          else String a (strings.replace (String c "") new O s)).
  rewrite prefix_byte. reflexivity.
Qed.

(** Stripping the dots first and splitting on ['/'] afterwards, as the code
    does, yields the pieces of the split with the dots stripped from each. *)
Lemma Split_ReplaceAll_dots (s : string) :
  strings.Split (strings.ReplaceAll s "." "") "/" =
  map (fun alt => strings.ReplaceAll alt "." "") (strings.Split s "/").
Proof.
  unfold strings.Split, strings.ReplaceAll.
  induction s as [|a s IH]; [reflexivity|].
  rewrite replace_byte_cons, (genSplit_byte_cons "/" a s).
  destruct (bool_decide_reflect ("."%char = a)) as [<-|Hdot].
  - rewrite (bool_decide_eq_false_2 ("/"%char = "."%char)) by (intros Heq; discriminate Heq).
    change ("" +:+ strings.replace "." "" 0 s) with (strings.replace "." "" 0 s). rewrite IH.
    destruct (strings.genSplit "/" O s) as [|p ps] eqn:E;
      [exfalso; exact (genSplit_nonempty _ _ _ E)|].
    cbn [map]. rewrite replace_byte_cons.
    rewrite bool_decide_eq_true_2 by reflexivity. reflexivity.
  - rewrite genSplit_byte_cons.
    destruct (bool_decide_reflect ("/"%char = a)) as [<-|Hslash].
    + rewrite IH. reflexivity.
    + rewrite IH.
      destruct (strings.genSplit "/" O s) as [|p ps] eqn:E;
        [exfalso; exact (genSplit_nonempty _ _ _ E)|].
      cbn [map]. rewrite replace_byte_cons.
      rewrite (bool_decide_eq_false_2 _ Hdot). reflexivity.
Qed.

End StringFacts.

(** ** Facts about [filepath] *)
Section PathFacts.

Local Open Scope nat_scope.

Lemma Contains_get (s : string) (i : nat) (c : ascii) :
  String.get i s = Some c -> strings.Contains s (String c "") = true.
Proof.
  revert i. induction s as [|a s IH]; intros i H; [discriminate|].
  cbn [strings.Contains]. destruct i as [|i]; simpl in H.
  - injection H as ->. rewrite prefix_byte, bool_decide_eq_true_2; reflexivity.
  - rewrite (IH i H). apply orb_true_r.
Qed.

Lemma substring_whole (s : string) : String.substring 0 (String.length s) s = s.
Proof. induction s as [|a s IH]; simpl; [reflexivity|]. rewrite IH. reflexivity. Qed.

(** When the loop of [Ext] finds an extension, it starts at a dot that only
    bytes other than the separator follow. *)
Lemma Ext_loop_dot (path : string) (n : nat) :
  filepath.Ext_loop path n <> "" ->
  exists i, i < n /\ String.get i path = Some "."%char /\
    forall j, i <= j < n ->
      exists c, String.get j path = Some c /\ os.IsPathSeparator c = false.
Proof.
  induction n as [|k IH]; cbn [filepath.Ext_loop]; [congruence|].
  destruct (String.get k path) as [c|] eqn:Hk; [|congruence].
  destruct (os.IsPathSeparator c) eqn:Hsep; [congruence|].
  destruct (Ascii.eqb c ".") eqn:Hdot.
  - intros _. apply Ascii.eqb_eq in Hdot. subst c.
    exists k. split; [lia|]. split; [exact Hk|].
    intros j Hj. assert (j = k) as -> by lia. eauto.
  - intros H. destruct (IH H) as (i & Hi & Hg & Hall).
    exists i. split; [lia|]. split; [exact Hg|].
    intros j Hj. destruct (Nat.eq_dec j k) as [->|Hjk]; [eauto|apply Hall; lia].
Qed.

Lemma lastElement_le (path : string) (n : nat) : filepath.lastElement path n <= n.
Proof.
  induction n as [|k IH]; cbn [filepath.lastElement]; [lia|].
  destruct (String.get k path) as [c|]; [|lia].
  destruct (os.IsPathSeparator c); lia.
Qed.

Lemma lastElement_before (path : string) (i n : nat) :
  i <= n ->
  (forall j, i <= j < n ->
     exists c, String.get j path = Some c /\ os.IsPathSeparator c = false) ->
  filepath.lastElement path n <= i.
Proof.
  induction n as [|k IH]; intros Hin Hall; cbn [filepath.lastElement]; [lia|].
  destruct (Nat.eq_dec i (S k)) as [->|Hne].
  - apply (lastElement_le path (S k)).
  - destruct (Hall k) as (c & -> & ->); [lia|].
    apply IH; [lia|]. intros j Hj. apply Hall. lia.
Qed.

(** A name without a dot has no extension: [Ext] looks at the last path
    element, which is the name whenever it holds a dot. *)
Lemma Ext_empty_of_Base (path : string) :
  strings.Contains (filepath.Base path) "." = false -> filepath.Ext path = "".
Proof.
  intros Hno. destruct (string_dec (filepath.Ext path) "") as [|Hne]; [assumption|exfalso].
  destruct (Ext_loop_dot _ _ Hne) as (i & Hi & Hg & Hall).
  unfold filepath.Base in Hno. cbv zeta in Hno.
  destruct (String.eqb_spec path "") as [He|_]; [rewrite He in Hg; discriminate Hg|].
  assert (filepath.stripTrailing path (String.length path) = String.length path) as Hstrip.
  { destruct (String.length path) as [|k] eqn:HL; [lia|].
    cbn [filepath.stripTrailing].
    destruct (Hall k) as (c & -> & ->); [lia|reflexivity]. }
  rewrite Hstrip in Hno. unfold strings.slice in Hno.
  rewrite Nat.sub_0_r, substring_whole in Hno.
  pose proof (lastElement_before path i (String.length path) ltac:(lia) Hall) as Hm.
  set (m := filepath.lastElement path (String.length path)) in *.
  assert (String.get (i - m) (String.substring m (String.length path - m) path)
          = Some "."%char) as Hget.
  { rewrite String.substring_correct1 by lia.
    replace (i - m + m) with i by lia. exact Hg. }
  destruct (String.eqb_spec (String.substring m (String.length path - m) path) "")
    as [He|_].
  - rewrite He in Hget. discriminate Hget.
  - rewrite (Contains_get _ _ _ Hget) in Hno. discriminate Hno.
Qed.

Lemma ToLower_empty {uni : Unicode} : strings.ToLower "" = "".
Proof. reflexivity. Qed.

End PathFacts.

(** ** The flag's computation *)
Section FlagFacts.

Context {any : Type}.

Lemma existsb_map_compose {A B : Type} (f : A -> B) (p : B -> bool) (l : list A) :
  existsb p (map f l) = existsb (fun a => p (f a)) l.
Proof. induction l as [|a l IH]; simpl; [reflexivity|]. rewrite IH. reflexivity. Qed.

(** The loop over the alternatives clears the flag exactly when one of them,
    behind a dot, is the extension. *)
Lemma range_es_spec (es : list string) (metadata : Metadata any) :
  range_es es metadata =
  if existsb (fun e => String.eqb ("." +:+ e) (Extension metadata)) es
  then set_ExtMismatch metadata false else metadata.
Proof.
  induction es as [|e es IH]; cbn [range_es existsb]; [reflexivity|].
  destruct (String.eqb ("." +:+ e) (Extension metadata)); [reflexivity|exact IH].
Qed.

(** The code strips the dots before it splits; the specification splits
    first.  Both name the same alternatives. *)
Lemma alternatives_agree (field ext : string) :
  existsb (fun e => String.eqb ("." +:+ e) ext)
    (strings.Split (strings.ReplaceAll field "." "") "/")
  = spec_extension_matches field ext.
Proof.
  unfold spec_extension_matches, spec_alternatives.
  rewrite Split_ReplaceAll_dots, !existsb_map_compose. reflexivity.
Qed.

End FlagFacts.

(** ** Runs of the package's functions *)

Lemma Is_ErrNoMetadataExtracted :
  errors.Is ErrNoMetadataExtracted ErrNoMetadataExtracted = true.
Proof. reflexivity. Qed.

Lemma Is_Errorf (msg : string) : errors.Is (Errorf msg) ErrNoMetadataExtracted = false.
Proof. reflexivity. Qed.

(** Evaluate the package's control flow and leave the string functions
    folded. *)
Ltac evaluate :=
  cbn -[String.eqb strings.Contains strings.Split strings.ReplaceAll
        filepath.Base filepath.Ext strings.ToLower errors.Is];
  rewrite ?Is_ErrNoMetadataExtracted, ?Is_Errorf;
  cbn -[String.eqb strings.Contains strings.Split strings.ReplaceAll
        filepath.Base filepath.Ext strings.ToLower errors.Is].

(** Ask the world for the next answer in the goal, by cases. *)
Ltac answer :=
  match goal with
  | |- context [sys_os_Stat ?n ?w] =>
      destruct (sys_os_Stat n w) as [[?fileInfo|?err] ?w] eqn:?
  | |- context [sys_times_Stat ?n ?w] =>
      destruct (sys_times_Stat n w) as [[?ts|?err] ?w] eqn:?
  | |- context [sys_trid_Scan ?t ?f ?n ?w] =>
      destruct (sys_trid_Scan t f n w) as [[?fileTypes [?err|]] ?w] eqn:?
  | |- context [sys_exiftool_New ?o ?w] =>
      destruct (sys_exiftool_New o w) as [[?et|?err] ?w] eqn:?
  | |- context [sys_exiftool_ExtractMetadata ?e ?f ?w] =>
      destruct (sys_exiftool_ExtractMetadata e f w)
        as [[|[?file ?fields [?err|]] ?fileInfos] ?w] eqn:?
  | |- context [sys_exiftool_Close ?e ?w] =>
      destruct (sys_exiftool_Close e w) as [?closed ?w] eqn:?
  | |- context [os.IsNotExist ?e] =>
      destruct (os.IsNotExist e) eqn:?
  end;
  evaluate.

Ltac unfold_run :=
  unfold run, returned, calls, Extract, getFileTimes, tridAnalysis, extractExifData,
    os_Stat, times_Stat, trid_Scan, exiftool_NewExiftool, exiftool_ExtractMetadata,
    exiftool_Close, call, mbind, M_bind, mret, M_ret;
  evaluate.

(** Every run of [Extract], answer by answer. *)
Ltac all_runs filePath :=
  unfold_run; destruct (String.eqb filePath "") eqn:?; unfold_run; repeat answer.

(** One of the logged calls is the given one: the others differ in kind. *)
Ltac which_call H :=
  cbn [In] in H; destruct_or?; simplify_eq; try contradiction.

(** The cases of the flag's computation. *)
Ltac flag_cases :=
  repeat (match goal with
          | |- context [match ?l with [] => _ | _ :: _ => _ end] =>
              is_var l; destruct l as [|?top ?rest]
          | |- context [if strings.Contains ?f "/" then _ else _] =>
              destruct (strings.Contains f "/") eqn:?
          | |- context [range_es _ _] => rewrite range_es_spec
          | |- context [if negb (String.eqb ?a ?b) then _ else _] =>
              destruct (String.eqb a b) eqn:?
          | |- context [if existsb ?p ?l then _ else _] =>
              destruct (existsb p l) eqn:?
          end; evaluate).

Section Runs.

Context {any W : Type} {sys : Sys any W} {uni : Unicode}.
Implicit Types (me : MetaExtractor) (filePath : string) (w : W).

(** Once the scan has answered without error, the fields of the first three
    steps are in the result, whatever happens to the tag extraction. *)
Lemma Extract_after_scan me filePath w t file n fileTypes :
  In (Ev_trid_Scan t file n (fileTypes, None)) (calls (run (Extract me filePath) w)) ->
  exists fileInfo ts,
    In (Ev_os_Stat filePath (inl fileInfo)) (calls (run (Extract me filePath) w)) /\
    In (Ev_times_Stat filePath (inl ts)) (calls (run (Extract me filePath) w)) /\
    Name (fst (returned (run (Extract me filePath) w))) = filepath.Base filePath /\
    Extension (fst (returned (run (Extract me filePath) w)))
      = strings.ToLower (filepath.Ext filePath) /\
    Size (fst (returned (run (Extract me filePath) w))) = os.Size fileInfo /\
    Time (fst (returned (run (Extract me filePath) w)))
      = {| ModTime := times.ModTime ts;
           AccessTime := times.AccessTime ts;
           ChangeTime := if times.HasChangeTime ts then times.ChangeTime ts else time.zero;
           BirthTime := if times.HasBirthTime ts then times.BirthTime ts else time.zero |} /\
    Types (fst (returned (run (Extract me filePath) w))) = fileTypes /\
    ExtMismatch (fst (returned (run (Extract me filePath) w)))
      = spec_mismatch (strings.ToLower (filepath.Ext filePath)) fileTypes.
Proof.
  all_runs filePath.
  all: intros H; which_call H.
  all: unfold spec_mismatch; destruct fileTypes as [|top rest]; evaluate.
  all: try (destruct (strings.Contains (trid.Extension top) "/");
            rewrite ?range_es_spec, <- ?alternatives_agree; evaluate).
  all: try match goal with
           | |- context [negb (String.eqb ?a ?b)] => destruct (String.eqb a b)
           | |- context [existsb ?p ?l] => destruct (existsb p l)
           end; evaluate.
  all: match goal with
       | Hs : sys_os_Stat _ _ = (inl ?fi, _), Ht : sys_times_Stat _ _ = (inl ?ts, _) |- _ =>
           exists fi, ts
       end; cbn [In]; split_and!; auto 8.
Qed.

(** ** The claims *)

(** C1 (as amended).  Without alternatives in the top candidate's field, the
    flag tells whether the lower-cased extension, dot included, differs from
    the field.  So a file with extension ".doc" is not flagged when the field
    is ".doc" and a file with extension ".txt" is; against the field "doc",
    which has no dot, the file with extension ".doc" is flagged as well. *)
Theorem Extract_mismatch_single_field me filePath w t file n top rest :
  In (Ev_trid_Scan t file n (top :: rest, None)) (calls (run (Extract me filePath) w)) ->
  strings.Contains (trid.Extension top) "/" = false ->
  ExtMismatch (fst (returned (run (Extract me filePath) w)))
    = negb (String.eqb (strings.ToLower (filepath.Ext filePath)) (trid.Extension top))
  /\ (trid.Extension top = ".doc" -> filepath.Ext filePath = ".doc" ->
      ExtMismatch (fst (returned (run (Extract me filePath) w))) = false)
  /\ (trid.Extension top = ".doc" -> filepath.Ext filePath = ".txt" ->
      ExtMismatch (fst (returned (run (Extract me filePath) w))) = true)
  /\ (trid.Extension top = "doc" -> filepath.Ext filePath = ".doc" ->
      ExtMismatch (fst (returned (run (Extract me filePath) w))) = true).
Proof.
  intros Hscan Hplain.
  destruct (Extract_after_scan _ _ _ _ _ _ _ Hscan) as (_ & _ & _ & _ & _ & _ & _ & _ & _ & ->).
  unfold spec_mismatch. rewrite Hplain.
  split; [reflexivity|].
  split_and!; intros -> ->; reflexivity.
Qed.

(** C2.  With alternatives in the top candidate's field, the flag is the
    negation of: one of the alternatives between the slashes, its dots
    removed and a dot put in front, is the lower-cased extension.  For
    "jpg/jpeg" a file with extension ".jpeg" is not flagged and one with
    extension ".png" is. *)
Theorem Extract_mismatch_alternatives me filePath w t file n top rest :
  In (Ev_trid_Scan t file n (top :: rest, None)) (calls (run (Extract me filePath) w)) ->
  strings.Contains (trid.Extension top) "/" = true ->
  ExtMismatch (fst (returned (run (Extract me filePath) w)))
    = negb (spec_extension_matches (trid.Extension top)
              (strings.ToLower (filepath.Ext filePath)))
  /\ (trid.Extension top = "jpg/jpeg" -> filepath.Ext filePath = ".jpeg" ->
      ExtMismatch (fst (returned (run (Extract me filePath) w))) = false)
  /\ (trid.Extension top = "jpg/jpeg" -> filepath.Ext filePath = ".png" ->
      ExtMismatch (fst (returned (run (Extract me filePath) w))) = true).
Proof.
  intros Hscan Hslash.
  destruct (Extract_after_scan _ _ _ _ _ _ _ Hscan) as (_ & _ & _ & _ & _ & _ & _ & _ & _ & ->).
  unfold spec_mismatch. rewrite Hslash.
  split; [reflexivity|].
  split_and!; intros -> ->; reflexivity.
Qed.

(** C7.  When the scan finds no candidate the flag stays false; and a file
    whose name holds no dot has the empty extension. *)
Theorem Extract_no_candidates me filePath w t file n :
  In (Ev_trid_Scan t file n ([], None)) (calls (run (Extract me filePath) w)) ->
  ExtMismatch (fst (returned (run (Extract me filePath) w))) = false
  /\ (strings.Contains (Name (fst (returned (run (Extract me filePath) w)))) "." = false ->
      Extension (fst (returned (run (Extract me filePath) w))) = "").
Proof.
  intros Hscan.
  destruct (Extract_after_scan _ _ _ _ _ _ _ Hscan)
    as (_ & _ & _ & _ & -> & -> & _ & _ & _ & ->).
  split; [reflexivity|].
  intros Hname. rewrite (Ext_empty_of_Base _ Hname). reflexivity.
Qed.

(** C9.  A file whose name holds no dot is flagged whenever the top
    candidate's field is non-empty and holds no slash. *)
Theorem Extract_extensionless_flagged me filePath w t file n top rest :
  In (Ev_trid_Scan t file n (top :: rest, None)) (calls (run (Extract me filePath) w)) ->
  strings.Contains (Name (fst (returned (run (Extract me filePath) w)))) "." = false ->
  trid.Extension top <> "" ->
  strings.Contains (trid.Extension top) "/" = false ->
  Extension (fst (returned (run (Extract me filePath) w))) = ""
  /\ ExtMismatch (fst (returned (run (Extract me filePath) w))) = true.
Proof.
  intros Hscan.
  destruct (Extract_after_scan _ _ _ _ _ _ _ Hscan)
    as (_ & _ & _ & _ & -> & -> & _ & _ & _ & ->).
  intros Hname Hfield Hplain.
  rewrite (Ext_empty_of_Base _ Hname).
  split; [reflexivity|].
  unfold spec_mismatch. rewrite Hplain.
  change (strings.ToLower "") with "".
  destruct (String.eqb_spec "" (trid.Extension top)) as [He|_]; [|reflexivity].
  congruence.
Qed.

(** C5.  On the empty path [Extract] returns the zero [Metadata] with
    [ErrNoFileSpecified]; it makes no call and leaves the world as it was. *)
Theorem Extract_no_file_specified me w :
  run (Extract me "") w =
  (({| Name := ""; Extension := ""; ExtMismatch := false; Size := 0;
       Time := {| ModTime := time.zero; AccessTime := time.zero;
                  ChangeTime := time.zero; BirthTime := time.zero |};
       Types := []; Exif := None |},
    Some ErrNoFileSpecified),
   {| world := w; trace := [] |}).
Proof. reflexivity. Qed.

(** C6 (as amended).  On a non-empty path [Extract] calls [os.Stat] first.
    When that fails, no other call is made and the result is the zero
    [Metadata]; the error is [ErrFileNotFound] when [os.IsNotExist] holds of
    the error of [os.Stat], and that error as it is otherwise, as for a
    missing entry below a regular file. *)
Theorem Extract_file_not_found me filePath w err :
  filePath <> "" ->
  fst (sys_os_Stat filePath w) = inr err ->
  calls (run (Extract me filePath) w) = [Ev_os_Stat filePath (inr err)]
  /\ returned (run (Extract me filePath) w)
     = (zero_Metadata, Some (if os.IsNotExist err then ErrFileNotFound else err))
  /\ (os.IsNotExist err = true ->
      snd (returned (run (Extract me filePath) w)) = Some ErrFileNotFound).
Proof.
  intros Hpath Hstat. apply String.eqb_neq in Hpath.
  unfold_run. rewrite Hpath. unfold_run.
  destruct (sys_os_Stat filePath w) as [answer w1]. cbn in Hstat. subst answer.
  evaluate. destruct (os.IsNotExist err); evaluate.
  - split_and!; reflexivity.
  - split_and!; [reflexivity|reflexivity|discriminate].
Qed.

(** C4.  When ExifTool has no result for the file, [Extract] succeeds and the
    tag map is the empty map, not the nil map. *)
Theorem Extract_no_metadata me filePath w et files :
  In (Ev_exiftool_ExtractMetadata et files []) (calls (run (Extract me filePath) w)) ->
  snd (returned (run (Extract me filePath) w)) = None
  /\ Exif (fst (returned (run (Extract me filePath) w))) = Some ∅.
Proof.
  all_runs filePath.
  all: intros H; which_call H.
  all: split; reflexivity.
Qed.

(** C8.  When [times.Stat] succeeds, [getFileTimes] returns no error;
    modification and access time are those of the answer, and a change or
    birth time that the file system does not have is left at the zero
    time. *)
Theorem getFileTimes_absent_times filePath w ts :
  In (Ev_times_Stat filePath (inl ts)) (calls (run (getFileTimes filePath) w)) ->
  snd (returned (run (getFileTimes filePath) w)) = None
  /\ ModTime (fst (returned (run (getFileTimes filePath) w))) = times.ModTime ts
  /\ AccessTime (fst (returned (run (getFileTimes filePath) w))) = times.AccessTime ts
  /\ ChangeTime (fst (returned (run (getFileTimes filePath) w)))
     = (if times.HasChangeTime ts then times.ChangeTime ts else time.zero)
  /\ BirthTime (fst (returned (run (getFileTimes filePath) w)))
     = (if times.HasBirthTime ts then times.BirthTime ts else time.zero).
Proof.
  unfold_run. repeat answer.
  all: intros H; which_call H.
  split_and!; reflexivity.
Qed.

(** C10.  [Extract] stats the file twice.  A failure of the first call,
    [os.Stat], is returned as [ErrFileNotFound] when it says that the entry
    does not exist, and as it is otherwise.  A failure of the second call,
    [times.Stat], is returned as it is, whatever it says; name, extension
    and size are then set, all four times are zero, and these two calls are
    the only ones made. *)
Theorem Extract_second_stat_fails me filePath w fileInfo err :
  In (Ev_os_Stat filePath (inl fileInfo)) (calls (run (Extract me filePath) w)) ->
  In (Ev_times_Stat filePath (inr err)) (calls (run (Extract me filePath) w)) ->
  calls (run (Extract me filePath) w)
    = [Ev_os_Stat filePath (inl fileInfo); Ev_times_Stat filePath (inr err)]
  /\ returned (run (Extract me filePath) w)
     = ({| Name := filepath.Base filePath;
           Extension := strings.ToLower (filepath.Ext filePath);
           ExtMismatch := false;
           Size := os.Size fileInfo;
           Time := {| ModTime := time.zero; AccessTime := time.zero;
                      ChangeTime := time.zero; BirthTime := time.zero |};
           Types := [];
           Exif := None |},
        Some err)
  /\ (forall w' err',
        In (Ev_os_Stat filePath (inr err')) (calls (run (Extract me filePath) w')) ->
        returned (run (Extract me filePath) w')
        = (zero_Metadata, Some (if os.IsNotExist err' then ErrFileNotFound else err'))).
Proof.
  intros Hstat Htimes. split_and!.
  - revert Hstat Htimes. all_runs filePath.
    all: intros H1 H2; cbn [In] in H1, H2; destruct_or?; simplify_eq; try contradiction;
      reflexivity.
  - revert Hstat Htimes. all_runs filePath.
    all: intros H1 H2; cbn [In] in H1, H2; destruct_or?; simplify_eq; try contradiction;
      reflexivity.
  - clear. intros w' err'. all_runs filePath.
    all: intros H; which_call H.
    all: first [reflexivity | congruence].
Qed.

(** A failed start of ExifTool and a first per-file result with an error both
    make [Extract] fail, with the error turned into text; either comes after
    a scan that succeeded. *)
Lemma Extract_tag_failure_returned me filePath w :
  (forall opts e,
      In (Ev_exiftool_New opts (inr e)) (calls (run (Extract me filePath) w)) ->
      snd (returned (run (Extract me filePath) w))
      = Some (Errorf ("error initializing ExifTool: " +:+ Error e))
      /\ exists t file n fileTypes,
           In (Ev_trid_Scan t file n (fileTypes, None)) (calls (run (Extract me filePath) w)))
  /\
  (forall et files fileInfos0 fileInfos e,
      In (Ev_exiftool_ExtractMetadata et files (fileInfos0 :: fileInfos))
         (calls (run (Extract me filePath) w)) ->
      exiftool.Err fileInfos0 = Some e ->
      snd (returned (run (Extract me filePath) w))
      = Some (Errorf ("error extracting metadata: " +:+ Error e))
      /\ exists t file n fileTypes,
           In (Ev_trid_Scan t file n (fileTypes, None)) (calls (run (Extract me filePath) w))).
Proof.
  split.
  - intros opts e. all_runs filePath.
    all: intros H; which_call H.
    all: split; [reflexivity|eexists _, _, _, _; cbn [In]; solve [auto 8]].
  - intros et files fileInfos0 fileInfos e. all_runs filePath.
    all: intros H Herr; which_call H; cbn in Herr; simplify_eq.
    all: split; [reflexivity|eexists _, _, _, _; cbn [In]; solve [auto 8]].
Qed.

(** C3.  A failure after the stat step comes with what was gathered before
    it.  When the scan fails, [Extract] returns the scan's error and a result
    with name, extension, size and times.  When the scan succeeded and
    [Extract] fails all the same, the error is one of the two tag-extraction
    failures other than [ErrNoMetadataExtracted], and the result has in
    addition the candidates and the flag derived from them.  And these two
    failures are returned: when ExifTool cannot be started, and when its
    first per-file result carries an error, [Extract] returns that error as
    text together with name, extension, size, times, candidates and flag. *)
Theorem Extract_partial_result me filePath w :
  (forall t file n fileTypes err,
      In (Ev_trid_Scan t file n (fileTypes, Some err))
         (calls (run (Extract me filePath) w)) ->
      exists fileInfo ts,
        In (Ev_os_Stat filePath (inl fileInfo)) (calls (run (Extract me filePath) w)) /\
        In (Ev_times_Stat filePath (inl ts)) (calls (run (Extract me filePath) w)) /\
        returned (run (Extract me filePath) w)
        = ({| Name := filepath.Base filePath;
              Extension := strings.ToLower (filepath.Ext filePath);
              ExtMismatch := false;
              Size := os.Size fileInfo;
              Time := {| ModTime := times.ModTime ts;
                         AccessTime := times.AccessTime ts;
                         ChangeTime := if times.HasChangeTime ts
                                       then times.ChangeTime ts else time.zero;
                         BirthTime := if times.HasBirthTime ts
                                      then times.BirthTime ts else time.zero |};
              Types := [];
              Exif := None |},
           Some err))
  /\
  (forall t file n fileTypes err,
      In (Ev_trid_Scan t file n (fileTypes, None))
         (calls (run (Extract me filePath) w)) ->
      snd (returned (run (Extract me filePath) w)) = Some err ->
      (exists fileInfo ts,
        In (Ev_os_Stat filePath (inl fileInfo)) (calls (run (Extract me filePath) w)) /\
        In (Ev_times_Stat filePath (inl ts)) (calls (run (Extract me filePath) w)) /\
        fst (returned (run (Extract me filePath) w))
        = {| Name := filepath.Base filePath;
             Extension := strings.ToLower (filepath.Ext filePath);
             ExtMismatch := spec_mismatch (strings.ToLower (filepath.Ext filePath)) fileTypes;
             Size := os.Size fileInfo;
             Time := {| ModTime := times.ModTime ts;
                        AccessTime := times.AccessTime ts;
                        ChangeTime := if times.HasChangeTime ts
                                      then times.ChangeTime ts else time.zero;
                        BirthTime := if times.HasBirthTime ts
                                     then times.BirthTime ts else time.zero |};
             Types := fileTypes;
             Exif := None |})
      /\ err <> ErrNoMetadataExtracted
      /\ ((exists e, In (Ev_exiftool_New (exifToolOpts me) (inr e))
                        (calls (run (Extract me filePath) w))
                     /\ err = Errorf ("error initializing ExifTool: " +:+ Error e))
          \/ (exists et fileInfos0 fileInfos e,
                 In (Ev_exiftool_ExtractMetadata et [filePath] (fileInfos0 :: fileInfos))
                    (calls (run (Extract me filePath) w))
                 /\ exiftool.Err fileInfos0 = Some e
                 /\ err = Errorf ("error extracting metadata: " +:+ Error e))))
  /\
  (forall opts e,
      In (Ev_exiftool_New opts (inr e)) (calls (run (Extract me filePath) w)) ->
      exists fileInfo ts t file n fileTypes,
        In (Ev_os_Stat filePath (inl fileInfo)) (calls (run (Extract me filePath) w)) /\
        In (Ev_times_Stat filePath (inl ts)) (calls (run (Extract me filePath) w)) /\
        In (Ev_trid_Scan t file n (fileTypes, None)) (calls (run (Extract me filePath) w)) /\
        returned (run (Extract me filePath) w)
        = ({| Name := filepath.Base filePath;
              Extension := strings.ToLower (filepath.Ext filePath);
              ExtMismatch := spec_mismatch (strings.ToLower (filepath.Ext filePath)) fileTypes;
              Size := os.Size fileInfo;
              Time := {| ModTime := times.ModTime ts;
                         AccessTime := times.AccessTime ts;
                         ChangeTime := if times.HasChangeTime ts
                                       then times.ChangeTime ts else time.zero;
                         BirthTime := if times.HasBirthTime ts
                                      then times.BirthTime ts else time.zero |};
              Types := fileTypes;
              Exif := None |},
           Some (Errorf ("error initializing ExifTool: " +:+ Error e))))
  /\
  (forall et files fileInfos0 fileInfos e,
      In (Ev_exiftool_ExtractMetadata et files (fileInfos0 :: fileInfos))
         (calls (run (Extract me filePath) w)) ->
      exiftool.Err fileInfos0 = Some e ->
      exists fileInfo ts t file n fileTypes,
        In (Ev_os_Stat filePath (inl fileInfo)) (calls (run (Extract me filePath) w)) /\
        In (Ev_times_Stat filePath (inl ts)) (calls (run (Extract me filePath) w)) /\
        In (Ev_trid_Scan t file n (fileTypes, None)) (calls (run (Extract me filePath) w)) /\
        returned (run (Extract me filePath) w)
        = ({| Name := filepath.Base filePath;
              Extension := strings.ToLower (filepath.Ext filePath);
              ExtMismatch := spec_mismatch (strings.ToLower (filepath.Ext filePath)) fileTypes;
              Size := os.Size fileInfo;
              Time := {| ModTime := times.ModTime ts;
                         AccessTime := times.AccessTime ts;
                         ChangeTime := if times.HasChangeTime ts
                                       then times.ChangeTime ts else time.zero;
                         BirthTime := if times.HasBirthTime ts
                                      then times.BirthTime ts else time.zero |};
              Types := fileTypes;
              Exif := None |},
           Some (Errorf ("error extracting metadata: " +:+ Error e)))).
Proof.
  assert (forall t file n fileTypes err,
      In (Ev_trid_Scan t file n (fileTypes, None))
         (calls (run (Extract me filePath) w)) ->
      snd (returned (run (Extract me filePath) w)) = Some err ->
      exists fileInfo ts,
        In (Ev_os_Stat filePath (inl fileInfo)) (calls (run (Extract me filePath) w)) /\
        In (Ev_times_Stat filePath (inl ts)) (calls (run (Extract me filePath) w)) /\
        fst (returned (run (Extract me filePath) w))
        = {| Name := filepath.Base filePath;
             Extension := strings.ToLower (filepath.Ext filePath);
             ExtMismatch := spec_mismatch (strings.ToLower (filepath.Ext filePath)) fileTypes;
             Size := os.Size fileInfo;
             Time := {| ModTime := times.ModTime ts;
                        AccessTime := times.AccessTime ts;
                        ChangeTime := if times.HasChangeTime ts
                                      then times.ChangeTime ts else time.zero;
                        BirthTime := if times.HasBirthTime ts
                                     then times.BirthTime ts else time.zero |};
             Types := fileTypes;
             Exif := None |}) as Hkept.
  { intros t file n fileTypes err Hscan Herr.
    destruct (Extract_after_scan _ _ _ _ _ _ _ Hscan)
      as (fileInfo & ts & Hstat & Htimes & HName & HExt & HSize & HTime & HTypes & HFlag).
    exists fileInfo, ts. split; [exact Hstat|]. split; [exact Htimes|].
    assert (Exif (fst (returned (run (Extract me filePath) w))) = None) as HExif.
    { clear -Herr. revert Herr. all_runs filePath.
      all: intros Herr; simplify_eq; try reflexivity.
      all: flag_cases; reflexivity. }
    destruct (fst (returned (run (Extract me filePath) w))).
    cbn in HName, HExt, HSize, HTime, HTypes, HFlag, HExif. congruence. }
  pose proof (Extract_tag_failure_returned me filePath w) as [Hstart Hfile].
  split; [|split; [|split]].
  - intros t file n fileTypes err. all_runs filePath.
    all: intros H; which_call H.
    match goal with
    | Hs : sys_os_Stat _ _ = (inl ?fi, _), Ht : sys_times_Stat _ _ = (inl ?ts, _) |- _ =>
        exists fi, ts
    end; cbn [In]; split_and!; auto.
  - intros t file n fileTypes err Hscan Herr. split; [|split].
    + exact (Hkept _ _ _ _ _ Hscan Herr).
    + clear -Hscan Herr. revert Hscan Herr. all_runs filePath.
      all: intros Hscan Herr; which_call Hscan; simplify_eq; discriminate.
    + clear -Hscan Herr. revert Hscan Herr. all_runs filePath.
      all: intros Hscan Herr; which_call Hscan; simplify_eq.
      all: first
        [ left; eexists; split; [cbn [In]; auto 8|reflexivity]
        | right; eexists _, _, _, _; split; [cbn [In]; auto 8|]; split; reflexivity ].
  - intros opts e Hnew.
    destruct (Hstart _ _ Hnew) as (Herr & t & file & n & fileTypes & Hscan).
    destruct (Hkept _ _ _ _ _ Hscan Herr) as (fileInfo & ts & Hstat & Htimes & Hmd).
    exists fileInfo, ts, t, file, n, fileTypes. split_and!; try assumption.
    rewrite <- Hmd, <- Herr. apply surjective_pairing.
  - intros et files fileInfos0 fileInfos e Hextract Hfirst.
    destruct (Hfile _ _ _ _ _ Hextract Hfirst) as (Herr & t & file & n & fileTypes & Hscan).
    destruct (Hkept _ _ _ _ _ Hscan Herr) as (fileInfo & ts & Hstat & Htimes & Hmd).
    exists fileInfo, ts, t, file, n, fileTypes. split_and!; try assumption.
    rewrite <- Hmd, <- Herr. apply surjective_pairing.
Qed.

End Runs.

(** ** The claims on sample runs *)

(** The call is among those of a closed run. *)
Ltac logged := vm_compute; auto 10.

Lemma Extract_mismatch_single_field_witness :
  ExtMismatch (fst (returned (sample_Extract "sample.doc" (all_well [sample_type ".doc"]))))
    = false
  /\ ExtMismatch (fst (returned (sample_Extract "sample.txt" (all_well [sample_type ".doc"]))))
    = true
  /\ ExtMismatch (fst (returned (sample_Extract "sample.doc" (all_well [sample_type "doc"]))))
    = true.
Proof.
  split; [|split].
  - refine (proj1 (proj2 (Extract_mismatch_single_field (sys := scripted string)
      (uni := ascii_only) sample_extractor "sample.doc" (all_well [sample_type ".doc"])
      (trid sample_extractor) "sample.doc" 5 (sample_type ".doc") [] _ _)) _ _).
    + logged.
    + reflexivity.
    + reflexivity.
    + reflexivity.
  - refine (proj1 (proj2 (proj2 (Extract_mismatch_single_field (sys := scripted string)
      (uni := ascii_only) sample_extractor "sample.txt" (all_well [sample_type ".doc"])
      (trid sample_extractor) "sample.txt" 5 (sample_type ".doc") [] _ _))) _ _).
    + logged.
    + reflexivity.
    + reflexivity.
    + reflexivity.
  - refine (proj2 (proj2 (proj2 (Extract_mismatch_single_field (sys := scripted string)
      (uni := ascii_only) sample_extractor "sample.doc" (all_well [sample_type "doc"])
      (trid sample_extractor) "sample.doc" 5 (sample_type "doc") [] _ _))) _ _).
    + logged.
    + reflexivity.
    + reflexivity.
    + reflexivity.
Defined.

(** C1, as the specification states it, fails: the file is "sample.doc", its
    extension is ".doc", the scan's only candidate has the field "doc" without
    a slash, and the flag is set. *)
Lemma Extract_doc_field_counterexample :
  filepath.Ext "sample.doc" = ".doc"
  /\ In (Ev_trid_Scan (trid sample_extractor) "sample.doc" 5 ([sample_type "doc"], None))
        (calls (sample_Extract "sample.doc" (all_well [sample_type "doc"])))
  /\ trid.Extension (sample_type "doc") = "doc"
  /\ strings.Contains (trid.Extension (sample_type "doc")) "/" = false
  /\ ExtMismatch (fst (returned (sample_Extract "sample.doc" (all_well [sample_type "doc"]))))
     <> false.
Proof.
  split; [reflexivity|]. split; [logged|]. split; [reflexivity|]. split; [reflexivity|].
  vm_compute. discriminate.
Qed.

Lemma Extract_mismatch_alternatives_witness :
  ExtMismatch (fst (returned (sample_Extract "photo.jpeg" (all_well [sample_type "jpg/jpeg"]))))
    = false
  /\ ExtMismatch (fst (returned (sample_Extract "photo.png" (all_well [sample_type "jpg/jpeg"]))))
    = true.
Proof.
  split.
  - refine (proj1 (proj2 (Extract_mismatch_alternatives (sys := scripted string)
      (uni := ascii_only) sample_extractor "photo.jpeg" (all_well [sample_type "jpg/jpeg"])
      (trid sample_extractor) "photo.jpeg" 5 (sample_type "jpg/jpeg") [] _ _)) _ _).
    + logged.
    + reflexivity.
    + reflexivity.
    + reflexivity.
  - refine (proj2 (proj2 (Extract_mismatch_alternatives (sys := scripted string)
      (uni := ascii_only) sample_extractor "photo.png" (all_well [sample_type "jpg/jpeg"])
      (trid sample_extractor) "photo.png" 5 (sample_type "jpg/jpeg") [] _ _)) _ _).
    + logged.
    + reflexivity.
    + reflexivity.
    + reflexivity.
Defined.

Lemma Extract_partial_result_witness :
  snd (returned (sample_Extract "sample.doc" trid_fails)) = Some (Foreign false "trid: timeout")
  /\ Name (fst (returned (sample_Extract "sample.doc" trid_fails))) = "sample.doc"
  /\ snd (returned (sample_Extract "sample.doc" (exiftool_rejects [sample_type ".pdf"])))
     = Some (Errorf "error extracting metadata: error during unmarshaling")
  /\ Types (fst (returned (sample_Extract "sample.doc" (exiftool_rejects [sample_type ".pdf"]))))
     = [sample_type ".pdf"]
  /\ snd (returned (sample_Extract "sample.doc" (exiftool_missing [sample_type ".pdf"])))
     = Some (Errorf
               "error initializing ExifTool: exec: exiftool: executable file not found in $PATH")
  /\ ExtMismatch
       (fst (returned (sample_Extract "sample.doc" (exiftool_missing [sample_type ".pdf"]))))
     = true.
Proof.
  pose proof (Extract_partial_result (sys := scripted string) (uni := ascii_only)
                sample_extractor "sample.doc" trid_fails) as (Hscan & _).
  destruct (Hscan (trid sample_extractor) "sample.doc" 5 [] (Foreign false "trid: timeout"))
    as (fileInfo & ts & _ & _ & Hreturned); [logged|].
  pose proof (Extract_partial_result (sys := scripted string) (uni := ascii_only)
                sample_extractor "sample.doc" (exiftool_rejects [sample_type ".pdf"]))
    as (_ & _ & _ & Hrejects).
  destruct (Hrejects (exiftool.session 1) ["sample.doc"]
              {| exiftool.File := "sample"; exiftool.Fields := None;
                 exiftool.Err := Some (Foreign false "error during unmarshaling") |}
              [] (Foreign false "error during unmarshaling"))
    as (fileInfo' & ts' & t' & file' & n' & fileTypes' & _ & _ & Hscan' & Hrejected);
    [logged|reflexivity|].
  assert (fileTypes' = [sample_type ".pdf"]) as ->.
  { vm_compute in Hscan'. destruct Hscan' as [H|[H|[H|[H|[H|[H|[]]]]]]]; try discriminate H.
    injection H as _ _ _ <-. reflexivity. }
  pose proof (Extract_partial_result (sys := scripted string) (uni := ascii_only)
                sample_extractor "sample.doc" (exiftool_missing [sample_type ".pdf"]))
    as (_ & _ & Hmissing & _).
  destruct (Hmissing (exifToolOpts sample_extractor)
              (Foreign false "exec: exiftool: executable file not found in $PATH"))
    as (fileInfo'' & ts'' & t'' & file'' & n'' & fileTypes'' & _ & _ & Hscan'' & Hmissed);
    [logged|].
  assert (fileTypes'' = [sample_type ".pdf"]) as ->.
  { vm_compute in Hscan''. destruct Hscan'' as [H|[H|[H|[H|[]]]]]; try discriminate H.
    injection H as _ _ _ <-. reflexivity. }
  unfold sample_Extract. rewrite Hreturned, Hrejected, Hmissed.
  split_and!; reflexivity.
Defined.

Lemma Extract_no_metadata_witness :
  snd (returned (sample_Extract "empty" (exiftool_silent []))) = None
  /\ Exif (fst (returned (sample_Extract "empty" (exiftool_silent [])))) = Some ∅.
Proof.
  apply (Extract_no_metadata (sys := scripted string) (uni := ascii_only)
           sample_extractor "empty" (exiftool_silent []) (exiftool.session 1) ["empty"]).
  logged.
Defined.

Lemma Extract_file_not_found_witness :
  missing sample_root "nonexistent_file" = true
  /\ calls (unix_Extract "nonexistent_file")
     = [Ev_os_Stat "nonexistent_file"
          (inr (Foreign true "stat nonexistent_file: no such file or directory"))]
  /\ snd (returned (unix_Extract "nonexistent_file")) = Some ErrFileNotFound.
Proof.
  destruct (Extract_file_not_found (sys := unix string) (uni := ascii_only)
              sample_extractor "nonexistent_file" sample_unix
              (Foreign true "stat nonexistent_file: no such file or directory"))
    as (Hcalls & _ & Hmapped); [discriminate|reflexivity|].
  split; [reflexivity|]. split; [exact Hcalls|]. apply Hmapped. reflexivity.
Defined.

(** C6, as the specification states it, fails: "file.txt/x" is a non-empty
    path that names no entry, since "file.txt" is a regular file; [os.Stat]
    reports that as ENOTDIR, of which [os.IsNotExist] does not hold, and
    [Extract] returns this error, not [ErrFileNotFound]. *)
Lemma Extract_missing_entry_counterexample :
  "file.txt/x" <> ""
  /\ missing sample_root "file.txt/x" = true
  /\ snd (returned (unix_Extract "file.txt/x"))
     = Some (Foreign false "stat file.txt/x: not a directory")
  /\ snd (returned (unix_Extract "file.txt/x")) <> Some ErrFileNotFound.
Proof.
  split; [discriminate|]. split; [reflexivity|]. split; [reflexivity|].
  vm_compute. discriminate.
Qed.

Lemma Extract_no_candidates_witness :
  ExtMismatch (fst (returned (sample_Extract "empty" (all_well [])))) = false
  /\ Extension (fst (returned (sample_Extract "empty" (all_well [])))) = "".
Proof.
  destruct (Extract_no_candidates (sys := scripted string) (uni := ascii_only)
              sample_extractor "empty" (all_well []) (trid sample_extractor) "empty" 5)
    as [Hflag Hext]; [logged|].
  split; [exact Hflag|]. apply Hext. reflexivity.
Defined.

Lemma getFileTimes_absent_times_witness :
  times.HasBirthTime sample_times = false
  /\ snd (returned (run (getFileTimes (sys := scripted string) "sample.doc") (all_well [])))
     = None
  /\ BirthTime
       (fst (returned (run (getFileTimes (sys := scripted string) "sample.doc") (all_well []))))
     = time.zero.
Proof.
  destruct (getFileTimes_absent_times (sys := scripted string) "sample.doc" (all_well [])
              sample_times) as (Herr & _ & _ & _ & Hbirth); [logged|].
  split; [reflexivity|]. split; [exact Herr|exact Hbirth].
Defined.

Lemma Extract_extensionless_flagged_witness :
  Extension (fst (returned (sample_Extract "testdata/README" (all_well [sample_type ".txt"]))))
    = ""
  /\ ExtMismatch
       (fst (returned (sample_Extract "testdata/README" (all_well [sample_type ".txt"]))))
     = true.
Proof.
  apply (Extract_extensionless_flagged (sys := scripted string) (uni := ascii_only)
           sample_extractor "testdata/README" (all_well [sample_type ".txt"])
           (trid sample_extractor) "testdata/README" 5 (sample_type ".txt") []).
  - logged.
  - reflexivity.
  - discriminate.
  - reflexivity.
Defined.

Lemma Extract_second_stat_fails_witness :
  os.IsNotExist (Foreign true "stat sample: no such file or directory") = true
  /\ calls (sample_Extract "sample" file_vanishes)
     = [Ev_os_Stat "sample" (inl sample_info);
        Ev_times_Stat "sample" (inr (Foreign true "stat sample: no such file or directory"))]
  /\ snd (returned (sample_Extract "sample" file_vanishes))
     = Some (Foreign true "stat sample: no such file or directory").
Proof.
  destruct (Extract_second_stat_fails (sys := scripted string) (uni := ascii_only)
              sample_extractor "sample" file_vanishes sample_info
              (Foreign true "stat sample: no such file or directory"))
    as (Hcalls & Hreturned & _); [logged|logged|].
  split; [reflexivity|]. split; [exact Hcalls|].
  unfold sample_Extract. rewrite Hreturned. reflexivity.
Defined.

(** * Further properties *)

(** ** [NewMetaExtractor] *)

(** X1.  The extractor always asks TrID for at least one match: a positive
    [TridMatches] is kept, anything else becomes 5. *)
Theorem NewMetaExtractor_matches_positive (opts : Options) :
  0 < tridMatches (NewMetaExtractor opts)
  /\ (0 < TridMatches opts -> tridMatches (NewMetaExtractor opts) = TridMatches opts)
  /\ (TridMatches opts <= 0 -> tridMatches (NewMetaExtractor opts) = 5).
Proof.
  unfold NewMetaExtractor. cbn [tridMatches].
  destruct (Z.leb_spec (TridMatches opts) 0); lia.
Qed.

(** X2.  ExifTool is always configured to extract binary and embedded
    metadata, in this order and before anything else; a binary path is
    configured exactly when [ExifToolPath] is not empty, and then it is that
    path. *)
Theorem NewMetaExtractor_exiftool_options (opts : Options) :
  (exists more, exifToolOpts (NewMetaExtractor opts)
                = exiftool.ExtractAllBinaryMetadata :: exiftool.ExtractEmbedded :: more)
  /\ (forall p, In (exiftool.SetExiftoolBinaryPath p) (exifToolOpts (NewMetaExtractor opts))
                <-> p = ExifToolPath opts /\ p <> "").
Proof.
  unfold NewMetaExtractor. cbn [exifToolOpts].
  destruct (String.eqb_spec (ExifToolPath opts) "") as [He|Hne]; cbn.
  - split; [eexists; reflexivity|].
    intros p. split.
    + intros [H|[H|[]]]; discriminate H.
    + intros [-> Hp]. congruence.
  - split; [eexists; reflexivity|].
    intros p. split.
    + intros [H|[H|[H|[]]]]; try discriminate H. injection H as <-. auto.
    + intros [-> _]. auto.
Qed.

(** ** More facts about [strings] and [filepath] *)
Section MoreFacts.

Local Open Scope nat_scope.

Lemma append_dot (s : string) : "." +:+ s = String "." s.
Proof. reflexivity. Qed.

(** No alternative is empty: each starts with a dot. *)
Lemma spec_extension_matches_empty (field : string) :
  spec_extension_matches field "" = false.
Proof.
  unfold spec_extension_matches, spec_alternatives.
  induction (strings.Split field "/") as [|alt alts IH]; [reflexivity|].
  cbn [map existsb]. rewrite IH, append_dot. reflexivity.
Qed.

Lemma scanASCII_to_end (s : string) (seen : bool) :
  fst (strings.scanASCII s seen) = true ->
  strings.scanASCII s seen = (true, seen || hasUpper s).
Proof.
  revert seen. induction s as [|c s IH]; intros seen; cbn [strings.scanASCII hasUpper].
  - rewrite orb_false_r. reflexivity.
  - destruct (strings.RuneSelf <=? nat_of_ascii c); [discriminate|].
    intros H. rewrite (IH _ H), orb_assoc. reflexivity.
Qed.

Lemma mapBytes_lowerByte_id (s : string) :
  hasUpper s = false -> strings.mapBytes strings.lowerByte s = s.
Proof.
  induction s as [|c s IH]; cbn [hasUpper strings.mapBytes]; [reflexivity|].
  intros H. apply orb_false_iff in H as [Hc Hs].
  rewrite (IH Hs). unfold strings.lowerByte. rewrite Hc. reflexivity.
Qed.

(** On ASCII text [ToLower] lowers byte by byte. *)
Lemma ToLower_ASCII {uni : Unicode} (s : string) :
  isASCII s = true -> strings.ToLower s = strings.mapBytes strings.lowerByte s.
Proof.
  unfold isASCII, strings.ToLower. intros H.
  rewrite (scanASCII_to_end _ _ H). cbn [orb].
  destruct (hasUpper s) eqn:Hup; cbn [negb]; [reflexivity|].
  symmetry. apply mapBytes_lowerByte_id, Hup.
Qed.

Lemma isUpper_lowerByte (c : ascii) : strings.isUpper (strings.lowerByte c) = false.
Proof. destruct c as [[] [] [] [] [] [] [] []]; reflexivity. Qed.

Lemma hasUpper_lowered (s : string) : hasUpper (strings.mapBytes strings.lowerByte s) = false.
Proof.
  induction s as [|c s IH]; cbn [hasUpper strings.mapBytes]; [reflexivity|].
  rewrite isUpper_lowerByte, IH. reflexivity.
Qed.

Lemma substring_from (s : string) (i : nat) (c : ascii) :
  String.get i s = Some c ->
  exists r, String.substring i (String.length s - i) s = String c r.
Proof.
  revert i. induction s as [|a s IH]; intros i H; [discriminate|].
  destruct i as [|i]; cbn in H |- *.
  - injection H as ->. eauto.
  - apply IH, H.
Qed.

Lemma Ext_loop_shape (path : string) (n : nat) :
  filepath.Ext_loop path n = "" \/ exists r, filepath.Ext_loop path n = String "." r.
Proof.
  induction n as [|k IH]; cbn [filepath.Ext_loop]; [auto|].
  destruct (String.get k path) as [c|] eqn:Hk; [|auto].
  destruct (os.IsPathSeparator c); [auto|].
  destruct (Ascii.eqb_spec c ".") as [->|_]; [|exact IH].
  right. unfold strings.slice. apply substring_from, Hk.
Qed.

(** An extension is empty or starts with its dot. *)
Lemma Ext_shape (path : string) :
  filepath.Ext path = "" \/ exists r, filepath.Ext path = String "." r.
Proof. apply Ext_loop_shape. Qed.

Lemma Contains_byte_false (s : string) (a : ascii) :
  (forall j, String.get j s <> Some a) -> strings.Contains s (String a "") = false.
Proof.
  induction s as [|c s IH]; intros H; [reflexivity|].
  cbn [strings.Contains]. rewrite prefix_byte.
  rewrite bool_decide_eq_false_2.
  - apply IH. intros j. apply (H (S j)).
  - intros ->. apply (H 0). reflexivity.
Qed.

Lemma lastElement_plain (path : string) (n j : nat) :
  filepath.lastElement path n <= j < n -> String.get j path <> Some "/"%char.
Proof.
  induction n as [|k IH]; cbn [filepath.lastElement]; [lia|].
  destruct (String.get k path) as [c|] eqn:Hk.
  - destruct (os.IsPathSeparator c) eqn:Hsep; [lia|].
    intros Hj. destruct (Nat.eq_dec j k) as [->|Hjk]; [|apply IH; lia].
    rewrite Hk. intros [= ->]. discriminate Hsep.
  - lia.
Qed.

(** A base name is never empty, and holds a separator only when it is the
    root. *)
Lemma Base_shape (path : string) :
  filepath.Base path <> ""
  /\ (strings.Contains (filepath.Base path) "/" = true -> filepath.Base path = "/").
Proof.
  unfold filepath.Base. cbv zeta.
  destruct (String.eqb path ""); [split; [discriminate|intros H; discriminate H]|].
  set (path1 := strings.slice path 0 (filepath.stripTrailing path (String.length path))).
  set (i := filepath.lastElement path1 (String.length path1)).
  destruct (String.eqb_spec (strings.slice path1 i (String.length path1)) "") as [_|Hne].
  - split; [discriminate|reflexivity].
  - split; [exact Hne|].
    intros H. exfalso. revert H. apply not_true_iff_false.
    apply Contains_byte_false. intros j Hj. unfold strings.slice in Hj.
    destruct (Nat.lt_ge_cases j (String.length path1 - i)) as [Hlt|Hge].
    + rewrite String.substring_correct1 in Hj by exact Hlt.
      revert Hj. apply (lastElement_plain path1 (String.length path1)). fold i. lia.
    + rewrite String.substring_correct2 in Hj by exact Hge. discriminate Hj.
Qed.

End MoreFacts.

Section MoreRuns.

Context {any W : Type} {sys : Sys any W} {uni : Unicode}.
Implicit Types (me : MetaExtractor) (filePath : string) (w : W).

(** X3.  An extractor made by [NewMetaExtractor] scans the given file with
    the configured TrID command, definitions and timeout and a positive match
    count, and starts ExifTool with the two extraction options, followed by
    the binary path when one is configured. *)
Theorem Extract_uses_configuration (opts : Options) filePath w (ev : Event any) :
  In ev (calls (run (Extract (NewMetaExtractor opts) filePath) w)) ->
  match ev with
  | Ev_trid_Scan t file n _ =>
      t = trid.NewTrid {| trid.Cmd := TridPath opts;
                          trid.Definitions := TridDefs opts;
                          trid.Timeout := TridTimeout opts |}
      /\ file = filePath
      /\ 0 < n
      /\ (0 < TridMatches opts -> n = TridMatches opts)
  | Ev_exiftool_New o _ =>
      o = (exiftool.ExtractAllBinaryMetadata :: exiftool.ExtractEmbedded ::
           if String.eqb (ExifToolPath opts) "" then []
           else [exiftool.SetExiftoolBinaryPath (ExifToolPath opts)])
  | _ => True
  end.
Proof.
  pose proof (NewMetaExtractor_matches_positive opts) as (Hpos & Hkeep & _).
  assert (exifToolOpts (NewMetaExtractor opts)
          = exiftool.ExtractAllBinaryMetadata :: exiftool.ExtractEmbedded ::
            if String.eqb (ExifToolPath opts) "" then []
            else [exiftool.SetExiftoolBinaryPath (ExifToolPath opts)]) as Hopts.
  { unfold NewMetaExtractor. cbn [exifToolOpts].
    destruct (String.eqb (ExifToolPath opts) ""); reflexivity. }
  assert (trid (NewMetaExtractor opts)
          = trid.NewTrid {| trid.Cmd := TridPath opts;
                            trid.Definitions := TridDefs opts;
                            trid.Timeout := TridTimeout opts |}) as Htrid by reflexivity.
  revert Hpos Hkeep Hopts Htrid.
  generalize (NewMetaExtractor opts). intros me Hpos Hkeep Hopts Htrid.
  revert ev. all_runs filePath.
  all: intros ev H; which_call H; auto.
Qed.

(** X4.  The calls of a run are an initial part of one fixed sequence:
    [os.Stat], [times.Stat], the scan, the start of ExifTool, the extraction,
    the closing of the session, each for the given file and the extractor's
    settings.  No call is made exactly when the path is empty, and a run
    never ends between extraction and closing. *)
Theorem Extract_call_protocol me filePath w :
  exists (k : nat) (et : exiftool.Exiftool),
    map call_of (calls (run (Extract me filePath) w)) = firstn k (full_protocol me filePath et)
    /\ (k <= 6)%nat /\ k <> 5%nat
    /\ (k = 0%nat <-> filePath = "").
Proof.
  destruct (String.eqb_spec filePath "") as [->|Hne].
  - exists 0%nat, (exiftool.session 0). split; [reflexivity|]. split; [lia|].
    split; [lia|]. split; reflexivity.
  - apply String.eqb_neq in Hne.
    unfold_run. rewrite Hne. unfold_run. apply String.eqb_neq in Hne. repeat answer.
    all: try (exists 1%nat, (exiftool.session 0); split; [reflexivity|]; split; [lia|];
              split; [lia|]; split; [lia|congruence]).
    all: try (exists 2%nat, (exiftool.session 0); split; [reflexivity|]; split; [lia|];
              split; [lia|]; split; [lia|congruence]).
    all: try (exists 3%nat, (exiftool.session 0); split; [reflexivity|]; split; [lia|];
              split; [lia|]; split; [lia|congruence]).
    all: try (exists 4%nat, (exiftool.session 0); split; [reflexivity|]; split; [lia|];
              split; [lia|]; split; [lia|congruence]).
    all: match goal with
         | Hn : sys_exiftool_New _ _ = (inl ?et, _) |- _ =>
             exists 6%nat, et; split; [reflexivity|]; split; [lia|];
             split; [lia|]; split; [lia|congruence]
         end.
Qed.


(** X6.  A session that was opened is closed by the last call of the run,
    after one extraction on that session for the given file alone. *)
Theorem Extract_session_closed me filePath w opts et :
  In (Ev_exiftool_New opts (inl et)) (calls (run (Extract me filePath) w)) ->
  exists fileInfos closed,
    In (Ev_exiftool_ExtractMetadata et [filePath] fileInfos)
       (calls (run (Extract me filePath) w))
    /\ last (calls (run (Extract me filePath) w)) = Some (Ev_exiftool_Close et closed).
Proof.
  all_runs filePath.
  all: intros H; which_call H.
  all: eexists _, _; split; [cbn [In]; auto 8|reflexivity].
Qed.



(** X7.  Once [os.Stat] has succeeded, name, extension and size are in the
    result however the run goes on. *)
Theorem Extract_after_stat me filePath w fileInfo :
  In (Ev_os_Stat filePath (inl fileInfo)) (calls (run (Extract me filePath) w)) ->
  Name (fst (returned (run (Extract me filePath) w))) = filepath.Base filePath
  /\ Extension (fst (returned (run (Extract me filePath) w)))
     = strings.ToLower (filepath.Ext filePath)
  /\ Size (fst (returned (run (Extract me filePath) w))) = os.Size fileInfo.
Proof.
  all_runs filePath.
  all: intros H; which_call H.
  all: flag_cases; split_and!; reflexivity.
Qed.

(** X8.  The name in a result is never empty after a successful [os.Stat],
    and it holds a separator only when it is the root, "/". *)
Theorem Extract_name_shape me filePath w fileInfo :
  In (Ev_os_Stat filePath (inl fileInfo)) (calls (run (Extract me filePath) w)) ->
  Name (fst (returned (run (Extract me filePath) w))) <> ""
  /\ (strings.Contains (Name (fst (returned (run (Extract me filePath) w)))) "/" = true ->
      Name (fst (returned (run (Extract me filePath) w))) = "/").
Proof.
  intros Hstat. destruct (Extract_after_stat _ _ _ _ Hstat) as (-> & _ & _).
  apply Base_shape.
Qed.

(** X9.  When ExifTool's first per-file result carries no error, [Extract]
    succeeds and the tag map is that result's fields, whatever the further
    per-file results are and whatever closing the session returns. *)
Theorem Extract_succeeds_on_fields me filePath w et files fileInfos0 fileInfos :
  In (Ev_exiftool_ExtractMetadata et files (fileInfos0 :: fileInfos))
     (calls (run (Extract me filePath) w)) ->
  exiftool.Err fileInfos0 = None ->
  snd (returned (run (Extract me filePath) w)) = None
  /\ Exif (fst (returned (run (Extract me filePath) w))) = exiftool.Fields fileInfos0.
Proof.
  all_runs filePath.
  all: intros H Herr; which_call H; cbn in Herr; simplify_eq.
  all: split; reflexivity.
Qed.

(** X10.  [Extract] returns no error exactly when the extraction was reached
    and ExifTool answered with no per-file result or with a first result free
    of error. *)
Theorem Extract_success_iff me filePath w :
  snd (returned (run (Extract me filePath) w)) = None <->
  exists et fileInfos,
    In (Ev_exiftool_ExtractMetadata et [filePath] fileInfos)
       (calls (run (Extract me filePath) w))
    /\ match fileInfos with
       | [] => True
       | fileInfos0 :: _ => exiftool.Err fileInfos0 = None
       end.
Proof.
  all_runs filePath.
  all: split;
    [ intros Hnone;
      first [ discriminate Hnone
            | eexists _, _; split; [cbn [In]; auto 8|]; cbn; auto ]
    | intros (et' & fis & H & Hfirst); which_call H; cbn in Hfirst;
      first [reflexivity | discriminate Hfirst] ].
Qed.

(** X11.  The flag depends on the extension and on the top candidate's field
    alone: two runs, on any paths, by any extractors, in any worlds, whose
    results have the same extension and whose scans put candidates with the
    same field first, set the same flag. *)
Theorem Extract_flag_top_candidate_only me me' filePath filePath' w w'
    t file n top rest t' file' n' top' rest' :
  In (Ev_trid_Scan t file n (top :: rest, None)) (calls (run (Extract me filePath) w)) ->
  In (Ev_trid_Scan t' file' n' (top' :: rest', None))
     (calls (run (Extract me' filePath') w')) ->
  Extension (fst (returned (run (Extract me filePath) w)))
  = Extension (fst (returned (run (Extract me' filePath') w'))) ->
  trid.Extension top = trid.Extension top' ->
  ExtMismatch (fst (returned (run (Extract me filePath) w)))
  = ExtMismatch (fst (returned (run (Extract me' filePath') w'))).
Proof.
  intros Hscan Hscan'.
  destruct (Extract_after_scan _ _ _ _ _ _ _ Hscan)
    as (_ & _ & _ & _ & _ & -> & _ & _ & _ & ->).
  destruct (Extract_after_scan _ _ _ _ _ _ _ Hscan')
    as (_ & _ & _ & _ & _ & -> & _ & _ & _ & ->).
  intros Hext Hfield. unfold spec_mismatch. rewrite Hext, Hfield. reflexivity.
Qed.

(** X12.  For a file whose name holds no dot, the flag tells whether the top
    candidate's field is non-empty: alternatives between slashes never match
    the empty extension, a plain field matches it only when empty. *)
Theorem Extract_extensionless_flag me filePath w t file n top rest :
  In (Ev_trid_Scan t file n (top :: rest, None)) (calls (run (Extract me filePath) w)) ->
  strings.Contains (Name (fst (returned (run (Extract me filePath) w)))) "." = false ->
  ExtMismatch (fst (returned (run (Extract me filePath) w)))
  = negb (String.eqb (trid.Extension top) "").
Proof.
  intros Hscan.
  destruct (Extract_after_scan _ _ _ _ _ _ _ Hscan)
    as (_ & _ & _ & _ & -> & _ & _ & _ & _ & ->).
  intros Hname. rewrite (Ext_empty_of_Base _ Hname).
  change (strings.ToLower "") with "". unfold spec_mismatch.
  destruct (strings.Contains (trid.Extension top) "/") eqn:Hslash.
  - rewrite spec_extension_matches_empty.
    destruct (String.eqb_spec (trid.Extension top) "") as [He|_]; [|reflexivity].
    rewrite He in Hslash. discriminate Hslash.
  - rewrite String.eqb_sym. reflexivity.
Qed.

(** X13.  The extension is lower-cased and the field is not: for a file with
    an ASCII extension, a top candidate whose field holds no slash but an
    upper-case letter sets the flag. *)
Theorem Extract_upper_case_field_flagged me filePath w t file n top rest :
  In (Ev_trid_Scan t file n (top :: rest, None)) (calls (run (Extract me filePath) w)) ->
  isASCII (filepath.Ext filePath) = true ->
  strings.Contains (trid.Extension top) "/" = false ->
  hasUpper (trid.Extension top) = true ->
  ExtMismatch (fst (returned (run (Extract me filePath) w))) = true.
Proof.
  intros Hscan Hascii Hplain Hupper.
  destruct (Extract_after_scan _ _ _ _ _ _ _ Hscan) as (_ & _ & _ & _ & _ & _ & _ & _ & _ & ->).
  unfold spec_mismatch. rewrite Hplain, (ToLower_ASCII _ Hascii).
  destruct (String.eqb_spec (strings.mapBytes strings.lowerByte (filepath.Ext filePath))
              (trid.Extension top)) as [He|_]; [|reflexivity].
  rewrite <- He, hasUpper_lowered in Hupper. discriminate Hupper.
Qed.

(** X14.  The extension keeps its dot and the field is compared as it is: for
    a file with an ASCII extension, a top candidate whose field is non-empty,
    holds no slash and does not start with a dot sets the flag. *)
Theorem Extract_dotless_field_flagged me filePath w t file n top rest :
  In (Ev_trid_Scan t file n (top :: rest, None)) (calls (run (Extract me filePath) w)) ->
  isASCII (filepath.Ext filePath) = true ->
  strings.Contains (trid.Extension top) "/" = false ->
  trid.Extension top <> "" ->
  String.prefix "." (trid.Extension top) = false ->
  ExtMismatch (fst (returned (run (Extract me filePath) w))) = true.
Proof.
  intros Hscan Hascii Hplain Hfield Hdot.
  destruct (Extract_after_scan _ _ _ _ _ _ _ Hscan) as (_ & _ & _ & _ & _ & _ & _ & _ & _ & ->).
  unfold spec_mismatch. rewrite Hplain, (ToLower_ASCII _ Hascii).
  destruct (String.eqb_spec (strings.mapBytes strings.lowerByte (filepath.Ext filePath))
              (trid.Extension top)) as [He|_]; [|reflexivity].
  exfalso. destruct (Ext_shape filePath) as [Hext|[r Hext]]; rewrite Hext in He.
  - apply Hfield. rewrite <- He. reflexivity.
  - rewrite <- He in Hdot. cbn [strings.mapBytes] in Hdot.
    change (strings.lowerByte ".") with "."%char in Hdot.
    rewrite prefix_byte, bool_decide_eq_true_2 in Hdot by reflexivity. discriminate Hdot.
Qed.

(** X15.  Between slashes the dots of a field do not count: two runs on the
    same path whose top candidates' fields hold a slash and are equal once
    their dots are removed set the same flag. *)
Theorem Extract_alternatives_dots_ignored me me' filePath w w'
    t file n top rest t' file' n' top' rest' :
  In (Ev_trid_Scan t file n (top :: rest, None)) (calls (run (Extract me filePath) w)) ->
  In (Ev_trid_Scan t' file' n' (top' :: rest', None))
     (calls (run (Extract me' filePath) w')) ->
  strings.Contains (trid.Extension top) "/" = true ->
  strings.Contains (trid.Extension top') "/" = true ->
  strings.ReplaceAll (trid.Extension top) "." ""
  = strings.ReplaceAll (trid.Extension top') "." "" ->
  ExtMismatch (fst (returned (run (Extract me filePath) w)))
  = ExtMismatch (fst (returned (run (Extract me' filePath) w'))).
Proof.
  intros Hscan Hscan' Hslash Hslash' Hsame.
  destruct (Extract_after_scan _ _ _ _ _ _ _ Hscan) as (_ & _ & _ & _ & _ & _ & _ & _ & _ & ->).
  destruct (Extract_after_scan _ _ _ _ _ _ _ Hscan') as (_ & _ & _ & _ & _ & _ & _ & _ & _ & ->).
  unfold spec_mismatch. rewrite Hslash, Hslash', <- !alternatives_agree, Hsame. reflexivity.
Qed.

(** X16.  [extractExifData] never returns a map together with an error, and
    its error is [ErrNoMetadataExtracted] or a new error made of text: an
    error of ExifTool is never passed on as it is. *)
Theorem extractExifData_error me filePath w err :
  snd (returned (run (extractExifData me filePath) w)) = Some err ->
  fst (returned (run (extractExifData me filePath) w)) = None
  /\ (err = ErrNoMetadataExtracted \/ exists msg, err = Errorf msg).
Proof.
  unfold_run. repeat answer.
  all: intros H; simplify_eq.
  all: split; [reflexivity|]; eauto.
Qed.

(** X17.  An ASCII extension comes out without upper-case letters, and
    unchanged when it had none. *)
Theorem Extract_extension_lower_case me filePath w fileInfo :
  In (Ev_os_Stat filePath (inl fileInfo)) (calls (run (Extract me filePath) w)) ->
  isASCII (filepath.Ext filePath) = true ->
  hasUpper (Extension (fst (returned (run (Extract me filePath) w)))) = false
  /\ (hasUpper (filepath.Ext filePath) = false ->
      Extension (fst (returned (run (Extract me filePath) w))) = filepath.Ext filePath).
Proof.
  intros Hstat Hascii. destruct (Extract_after_stat _ _ _ _ Hstat) as (_ & -> & _).
  rewrite (ToLower_ASCII _ Hascii). split; [apply hasUpper_lowered|].
  apply mapBytes_lowerByte_id.
Qed.

(** X18.  Once [times.Stat] has succeeded, the four times are in the result
    however the run goes on: modification and access time as answered, change
    and birth time where the file system has them and the zero time where it
    has not. *)
Theorem Extract_times_kept me filePath w ts :
  In (Ev_times_Stat filePath (inl ts)) (calls (run (Extract me filePath) w)) ->
  Time (fst (returned (run (Extract me filePath) w)))
  = {| ModTime := times.ModTime ts;
       AccessTime := times.AccessTime ts;
       ChangeTime := if times.HasChangeTime ts then times.ChangeTime ts else time.zero;
       BirthTime := if times.HasBirthTime ts then times.BirthTime ts else time.zero |}.
Proof.
  all_runs filePath.
  all: intros H; which_call H.
  all: flag_cases; reflexivity.
Qed.

(** X19.  The candidates of a successful scan are in the result as the scan
    gave them, in number and order, whether the tag extraction then succeeds
    or not. *)
Theorem Extract_types_as_scanned me filePath w t file n fileTypes :
  In (Ev_trid_Scan t file n (fileTypes, None)) (calls (run (Extract me filePath) w)) ->
  Types (fst (returned (run (Extract me filePath) w))) = fileTypes.
Proof.
  intros Hscan.
  destruct (Extract_after_scan _ _ _ _ _ _ _ Hscan) as (_ & _ & _ & _ & _ & _ & _ & _ & H & _).
  exact H.
Qed.

(** X20.  Where an error of [Extract] comes from: the empty path; [os.Stat],
    whose error is replaced by [ErrFileNotFound] when it says that the entry
    does not exist; [times.Stat] and the scan, whose errors are returned as
    they are; the start of ExifTool and its first per-file result, whose
    errors are turned into text. *)
Theorem Extract_error_origin me filePath w err :
  snd (returned (run (Extract me filePath) w)) = Some err ->
  (filePath = "" /\ err = ErrNoFileSpecified)
  \/ (exists e, In (Ev_os_Stat filePath (inr e)) (calls (run (Extract me filePath) w))
                /\ err = if os.IsNotExist e then ErrFileNotFound else e)
  \/ (exists e, In (Ev_times_Stat filePath (inr e)) (calls (run (Extract me filePath) w))
                /\ err = e)
  \/ (exists fileTypes e,
         In (Ev_trid_Scan (trid me) filePath (tridMatches me) (fileTypes, Some e))
            (calls (run (Extract me filePath) w))
         /\ err = e)
  \/ (exists e, In (Ev_exiftool_New (exifToolOpts me) (inr e))
                   (calls (run (Extract me filePath) w))
                /\ err = Errorf ("error initializing ExifTool: " +:+ Error e))
  \/ (exists et fileInfos0 fileInfos e,
         In (Ev_exiftool_ExtractMetadata et [filePath] (fileInfos0 :: fileInfos))
            (calls (run (Extract me filePath) w))
         /\ exiftool.Err fileInfos0 = Some e
         /\ err = Errorf ("error extracting metadata: " +:+ Error e)).
Proof.
  destruct (String.eqb_spec filePath "") as [->|Hne].
  - intros H. left. split; [reflexivity|]. cbn in H. congruence.
  - apply String.eqb_neq in Hne. unfold_run. rewrite Hne. unfold_run. repeat answer.
    all: intros H; simplify_eq.
    all: right.
    all: first
      [ left; eexists; split; [cbn [In]; solve [auto 8]|];
        match goal with Hg : os.IsNotExist _ = _ |- _ => rewrite Hg end; reflexivity
      | right; left; eexists; split; [cbn [In]; solve [auto 8]|reflexivity]
      | right; right; left; eexists _, _; split; [cbn [In]; solve [auto 8]|reflexivity]
      | right; right; right; left; eexists; split; [cbn [In]; solve [auto 8]|reflexivity]
      | right; right; right; right; eexists _, _, _, _; split; [cbn [In]; solve [auto 8]|];
        split; reflexivity ].
Qed.

End MoreRuns.

(** ** The further properties on sample runs *)

Lemma NewMetaExtractor_matches_positive_witness :
  tridMatches (NewMetaExtractor {| TridPath := "trid"; TridDefs := "triddefs.trd";
                                    TridTimeout := 1000000000; TridMatches := 3;
                                    ExifToolPath := "/usr/bin/exiftool" |}) = 3
  /\ tridMatches (NewMetaExtractor {| TridPath := "trid"; TridDefs := "triddefs.trd";
                                       TridTimeout := 1000000000; TridMatches := -1;
                                       ExifToolPath := "/usr/bin/exiftool" |}) = 5.
Proof.
  split.
  - apply (NewMetaExtractor_matches_positive
             {| TridPath := "trid"; TridDefs := "triddefs.trd"; TridTimeout := 1000000000;
                TridMatches := 3; ExifToolPath := "/usr/bin/exiftool" |}).
    reflexivity.
  - apply (NewMetaExtractor_matches_positive
             {| TridPath := "trid"; TridDefs := "triddefs.trd"; TridTimeout := 1000000000;
                TridMatches := -1; ExifToolPath := "/usr/bin/exiftool" |}).
    discriminate.
Defined.

Lemma NewMetaExtractor_exiftool_options_witness :
  In (exiftool.SetExiftoolBinaryPath "/usr/bin/exiftool")
     (exifToolOpts (NewMetaExtractor {| TridPath := "trid"; TridDefs := "triddefs.trd";
                                        TridTimeout := 1000000000; TridMatches := 3;
                                        ExifToolPath := "/usr/bin/exiftool" |})).
Proof.
  apply (NewMetaExtractor_exiftool_options
           {| TridPath := "trid"; TridDefs := "triddefs.trd"; TridTimeout := 1000000000;
              TridMatches := 3; ExifToolPath := "/usr/bin/exiftool" |}).
  split; [reflexivity|discriminate].
Defined.

Lemma Extract_uses_configuration_witness :
  trid sample_extractor
  = trid.NewTrid {| trid.Cmd := "/usr/bin/trid";
                    trid.Definitions := "/usr/share/trid/triddefs.trd";
                    trid.Timeout := 5000000000 |}
  /\ "sample.doc" = "sample.doc"
  /\ 0 < tridMatches sample_extractor
  /\ (0 < 0 -> tridMatches sample_extractor = 0).
Proof.
  apply (Extract_uses_configuration (sys := scripted string) (uni := ascii_only)
           {| TridPath := "/usr/bin/trid"; TridDefs := "/usr/share/trid/triddefs.trd";
              TridTimeout := 5000000000; TridMatches := 0; ExifToolPath := "" |}
           "sample.doc" (all_well [sample_type ".pdf"])
           (Ev_trid_Scan (trid sample_extractor) "sample.doc" 5
              ([sample_type ".pdf"], None))).
  logged.
Defined.

Lemma Extract_session_closed_witness :
  exists fileInfos closed,
    In (Ev_exiftool_ExtractMetadata (exiftool.session 7) ["sample.doc"] fileInfos)
       (calls (sample_Extract "sample.doc" (close_fails [])))
    /\ last (calls (sample_Extract "sample.doc" (close_fails [])))
       = Some (Ev_exiftool_Close (exiftool.session 7) closed).
Proof.
  apply (Extract_session_closed (sys := scripted string) (uni := ascii_only)
           sample_extractor "sample.doc" (close_fails [])
           (exifToolOpts sample_extractor) (exiftool.session 7)).
  logged.
Defined.

Lemma Extract_after_stat_witness :
  Name (fst (returned (sample_Extract "testdata/sample.DOC" file_vanishes))) = "sample.DOC"
  /\ Extension (fst (returned (sample_Extract "testdata/sample.DOC" file_vanishes))) = ".doc"
  /\ Size (fst (returned (sample_Extract "testdata/sample.DOC" file_vanishes))) = 1044.
Proof.
  apply (Extract_after_stat (sys := scripted string) (uni := ascii_only)
           sample_extractor "testdata/sample.DOC" file_vanishes sample_info).
  logged.
Defined.

Lemma Extract_name_shape_witness :
  Name (fst (returned (sample_Extract "///" (all_well [])))) <> ""
  /\ (strings.Contains (Name (fst (returned (sample_Extract "///" (all_well []))))) "/" = true ->
      Name (fst (returned (sample_Extract "///" (all_well [])))) = "/").
Proof.
  apply (Extract_name_shape (sys := scripted string) (uni := ascii_only)
           sample_extractor "///" (all_well []) sample_info).
  logged.
Defined.

Lemma Extract_succeeds_on_fields_witness :
  snd (returned (sample_Extract "sample.doc" (close_fails []))) = None
  /\ Exif (fst (returned (sample_Extract "sample.doc" (close_fails [])))) = Some sample_fields.
Proof.
  apply (Extract_succeeds_on_fields (sys := scripted string) (uni := ascii_only)
           sample_extractor "sample.doc" (close_fails []) (exiftool.session 7) ["sample.doc"]
           {| exiftool.File := "sample"; exiftool.Fields := Some sample_fields;
              exiftool.Err := None |}
           [ {| exiftool.File := "other"; exiftool.Fields := None;
                exiftool.Err := Some (Foreign false "file not found") |} ]).
  - logged.
  - reflexivity.
Defined.

Lemma Extract_success_iff_witness :
  exists et fileInfos,
    In (Ev_exiftool_ExtractMetadata et ["empty"] fileInfos)
       (calls (sample_Extract "empty" (exiftool_silent [])))
    /\ match fileInfos with
       | [] => True
       | fileInfos0 :: _ => exiftool.Err fileInfos0 = None
       end.
Proof.
  apply (proj1 (Extract_success_iff (sys := scripted string) (uni := ascii_only)
                  sample_extractor "empty" (exiftool_silent []))).
  reflexivity.
Defined.

Lemma Extract_flag_top_candidate_only_witness :
  ExtMismatch (fst (returned (sample_Extract "a/sample.MP3" (all_well [sample_type ".mp3"]))))
  = ExtMismatch (fst (returned (sample_Extract "sample.mp3"
                                  (close_fails [sample_type ".mp3"; sample_type ".bin"])))).
Proof.
  apply (Extract_flag_top_candidate_only (sys := scripted string) (uni := ascii_only)
           sample_extractor sample_extractor "a/sample.MP3" "sample.mp3"
           (all_well [sample_type ".mp3"])
           (close_fails [sample_type ".mp3"; sample_type ".bin"])
           (trid sample_extractor) "a/sample.MP3" 5 (sample_type ".mp3") []
           (trid sample_extractor) "sample.mp3" 5 (sample_type ".mp3") [sample_type ".bin"]).
  - logged.
  - logged.
  - reflexivity.
  - reflexivity.
Defined.

Lemma Extract_extensionless_flag_witness :
  ExtMismatch (fst (returned (sample_Extract "testdata/README" (all_well [sample_type ""]))))
  = false
  /\ ExtMismatch
       (fst (returned (sample_Extract "testdata/README" (all_well [sample_type "jpg/jpeg"]))))
     = true.
Proof.
  split.
  - apply (Extract_extensionless_flag (sys := scripted string) (uni := ascii_only)
             sample_extractor "testdata/README" (all_well [sample_type ""])
             (trid sample_extractor) "testdata/README" 5 (sample_type "") []).
    + logged.
    + reflexivity.
  - apply (Extract_extensionless_flag (sys := scripted string) (uni := ascii_only)
             sample_extractor "testdata/README" (all_well [sample_type "jpg/jpeg"])
             (trid sample_extractor) "testdata/README" 5 (sample_type "jpg/jpeg") []).
    + logged.
    + reflexivity.
Defined.

Lemma Extract_upper_case_field_flagged_witness :
  ExtMismatch (fst (returned (sample_Extract "sample.MP3" (all_well [sample_type ".MP3"]))))
  = true.
Proof.
  apply (Extract_upper_case_field_flagged (sys := scripted string) (uni := ascii_only)
           sample_extractor "sample.MP3" (all_well [sample_type ".MP3"])
           (trid sample_extractor) "sample.MP3" 5 (sample_type ".MP3") []).
  - logged.
  - reflexivity.
  - reflexivity.
  - reflexivity.
Defined.

Lemma Extract_dotless_field_flagged_witness :
  ExtMismatch (fst (returned (sample_Extract "sample.mp3" (all_well [sample_type "mp3"]))))
  = true.
Proof.
  apply (Extract_dotless_field_flagged (sys := scripted string) (uni := ascii_only)
           sample_extractor "sample.mp3" (all_well [sample_type "mp3"])
           (trid sample_extractor) "sample.mp3" 5 (sample_type "mp3") []).
  - logged.
  - reflexivity.
  - reflexivity.
  - discriminate.
  - reflexivity.
Defined.

Lemma Extract_alternatives_dots_ignored_witness :
  ExtMismatch (fst (returned (sample_Extract "photo.jpeg" (all_well [sample_type ".jpg/.jpeg"]))))
  = ExtMismatch (fst (returned (sample_Extract "photo.jpeg" (all_well [sample_type "jpg/jpeg"])))).
Proof.
  apply (Extract_alternatives_dots_ignored (sys := scripted string) (uni := ascii_only)
           sample_extractor sample_extractor "photo.jpeg"
           (all_well [sample_type ".jpg/.jpeg"]) (all_well [sample_type "jpg/jpeg"])
           (trid sample_extractor) "photo.jpeg" 5 (sample_type ".jpg/.jpeg") []
           (trid sample_extractor) "photo.jpeg" 5 (sample_type "jpg/jpeg") []).
  - logged.
  - logged.
  - reflexivity.
  - reflexivity.
  - reflexivity.
Defined.

Lemma extractExifData_error_witness :
  fst (returned (run (extractExifData (sys := scripted string) sample_extractor "sample.doc")
                     (exiftool_rejects [])))
  = None
  /\ (Errorf "error extracting metadata: error during unmarshaling" = ErrNoMetadataExtracted
      \/ exists msg, Errorf "error extracting metadata: error during unmarshaling" = Errorf msg).
Proof.
  apply (extractExifData_error (sys := scripted string) sample_extractor "sample.doc"
           (exiftool_rejects [])
           (Errorf "error extracting metadata: error during unmarshaling")).
  reflexivity.
Defined.

Lemma Extract_extension_lower_case_witness :
  hasUpper (Extension (fst (returned (sample_Extract "sample.Mp3" (all_well [])))))
  = false.
Proof.
  apply (Extract_extension_lower_case (sys := scripted string) (uni := ascii_only)
           sample_extractor "sample.Mp3" (all_well []) sample_info).
  - logged.
  - reflexivity.
Defined.

Lemma Extract_times_kept_witness :
  Time (fst (returned (sample_Extract "sample.doc" trid_fails)))
  = {| ModTime := times.ModTime sample_times;
       AccessTime := times.AccessTime sample_times;
       ChangeTime := times.ChangeTime sample_times;
       BirthTime := time.zero |}.
Proof.
  apply (Extract_times_kept (sys := scripted string) (uni := ascii_only)
           sample_extractor "sample.doc" trid_fails sample_times).
  logged.
Defined.

Lemma Extract_types_as_scanned_witness :
  Types (fst (returned (sample_Extract "sample.doc"
                          (exiftool_rejects [sample_type ".pdf"; sample_type ".ai"]))))
  = [sample_type ".pdf"; sample_type ".ai"].
Proof.
  apply (Extract_types_as_scanned (sys := scripted string) (uni := ascii_only)
           sample_extractor "sample.doc"
           (exiftool_rejects [sample_type ".pdf"; sample_type ".ai"])
           (trid sample_extractor) "sample.doc" 5).
  logged.
Defined.

Lemma Extract_error_origin_witness :
  exists e, In (Ev_times_Stat "sample" (inr e)) (calls (sample_Extract "sample" file_vanishes))
            /\ Foreign true "stat sample: no such file or directory" = e.
Proof.
  destruct (Extract_error_origin (sys := scripted string) (uni := ascii_only)
              sample_extractor "sample" file_vanishes
              (Foreign true "stat sample: no such file or directory"))
    as [[H _]|[(e & Hin & _)|[H|[(fts & e & Hin & _)|[(e & Hin & _)|(et & a & b & e & Hin & _)]]]]];
    [reflexivity|..].
  - discriminate H.
  - exfalso. vm_compute in Hin. destruct Hin as [H|[H|[]]]; discriminate H.
  - exact H.
  - exfalso. vm_compute in Hin. destruct Hin as [H|[H|[]]]; discriminate H.
  - exfalso. vm_compute in Hin. destruct Hin as [H|[H|[]]]; discriminate H.
  - exfalso. vm_compute in Hin. destruct Hin as [H|[H|[]]]; discriminate H.
Defined.
